(** * gcumos.pickler: custom pickling hooks and the packaging session

    A shallow embedding of [gcumos/pickler.py].  The Python module keeps its
    state in process-wide objects: the class attributes [dill.Pickler.dispatch]
    and [dill.Pickler.save], the module globals [_contexts] and
    [_CUSTOM_DISPATCH], the interpreter's module table and the file system.
    They are the fields of [World]; every function of the module that reads or
    writes them is a computation in the state-and-exception monad [M]. *)

From Stdlib Require Import ZArith Ascii String.
From stdpp Require Import base gmap sets list strings option.

Local Open Scope string_scope.
Set Warnings "-register-all".

(** ** Exceptions *)

(** The module raises plain [Exception] objects that differ by their message;
    each message of the source is one constructor.  The remaining constructors
    are the built-in exceptions that the statements of the module can raise. *)
Inductive PyExn :=
| Exc_already_created (name : string)
    (* "AcumosContext '{}' has already been created. Use `get_context` ..." *)
| Exc_not_created (name : string)
    (* "AcumosContext '{}' has not been created" *)
| Exc_rootdir_missing (dir_ : string)
    (* "Provided AcumosContext rootdir {} does not exist" *)
| Exc_root_directory_missing (root_dir : string)
    (* "AcumosContext root directory {} does not exist" *)
| Exc_module_not_importable (module : string)
    (* "Module '{}' was identified as a dependency, but cannot be imported..." *)
| Exc_module_bad_type
    (* "Module must be of type str or types.ModuleType, not {}" *)
| KeyError (key : string)
| IndexError
| AttributeError (attr : string)
| FileNotFoundError (path : string)
| JSONDecodeError (path : string)
| UserError (tag : string).
    (* anything raised by the caller's own code inside a session *)

(** The error taxonomy of the specification (section 7), as a classification of
    the exceptions above. *)
Inductive ErrorClass := ConfigurationError | TypeMismatchError | OtherError.

Definition error_class (e : PyExn) : ErrorClass :=
  match e with
  | Exc_already_created _ | Exc_not_created _
  | Exc_rootdir_missing _ | Exc_root_directory_missing _
  | Exc_module_not_importable _ => ConfigurationError
  | Exc_module_bad_type => TypeMismatchError
  | _ => OtherError
  end.

(** The text that identifies what a configuration error is about: the value
    formatted into the message. *)
Definition error_names (e : PyExn) : option string :=
  match e with
  | Exc_already_created s | Exc_not_created s | Exc_rootdir_missing s
  | Exc_root_directory_missing s | Exc_module_not_importable s => Some s
  | _ => None
  end.

Inductive Result (A : Type) :=
| Ok (a : A)
| Raise (e : PyExn).
Arguments Ok {A} a.
Arguments Raise {A} e.

(** ** Values *)

(** Type objects as the annotation codec sees them: the two bare generics
    [typing.Dict] and [typing.List], any other class, and a subscripted generic
    [origin[args]].  [__origin__] and [__args__] are [None] on everything but a
    subscripted generic. *)
Inductive PyType :=
| typing_Dict
| typing_List
| Class (qualname : string)
| Subscript (origin : PyType) (args : list PyType).

Definition __origin__ (t : PyType) : option PyType :=
  match t with
  | Subscript origin _ => Some origin
  | _ => None
  end.

Definition __args__ (t : PyType) : option (list PyType) :=
  match t with
  | Subscript _ args => Some args
  | _ => None
  end.

(** A [NamedTuple] class.  [nt_id] is the identity of the class object: two
    classes with the same name and fields are still two objects. *)
Record NamedTuple := {
  nt_id : nat;
  nt_name : string;
  nt_field_types : list (string * PyType)
}.

(** A module object, reduced to the two attributes the module reads. *)
Record Module := {
  __name__ : string;
  __package__ : option string
}.

Global Instance Module_eq_dec : EqDecision Module.
Proof. solve_decision. Defined.

Global Instance Module_countable : Countable Module.
Proof.
  refine (inj_countable' (fun m => (__name__ m, __package__ m))
                         (fun p => {| __name__ := p.1; __package__ := p.2 |}) _).
  by intros [].
Defined.

(** What [add_module] can be handed. *)
Inductive ModuleArg :=
| ArgStr (name : string)
| ArgModule (m : Module)
| ArgOther.

(** JSON values, the values of the parameter mapping. *)
Inductive JSON :=
| JNull
| JBool (b : bool)
| JNumber (z : Z)
| JString (s : string)
| JArray (items : list JSON)
| JObject (members : list (string * JSON)).

(** The content of a file.  [json.dump] and [json.load] belong to the Python
    standard library; a file written by [json.dump] is represented by the
    document it holds, so that [json.load] of it gives the mapping back.  Any
    other content does not load. *)
Inductive FileContent :=
| JsonDocument (doc : gmap string JSON)
| OtherContent (text : string).

(** An [AcumosContext] instance. *)
Record AcumosContext := {
  _modules : gset Module;
  _root_dir : string;
  _params_path : string;
  parameters : gmap string JSON
}.

(** The functions that can sit in a dispatch table. *)
Inductive Handler :=
| H_save_annotation
| H_custom (tag : string)
| H_stock (tag : string).

Global Instance Handler_eq_dec : EqDecision Handler.
Proof. solve_decision. Defined.

(** The values [dill.Pickler.save] takes: dill's own function, or the closure
    [wrapped_save] of [_patch_dill], which is determined by the [pickler_save]
    it captured. *)
Inductive SaveFn :=
| dill_save
| Wrapped (pickler_save : SaveFn).

(** What a pickler writes for one object: the reduction handed to
    [save_reduce] (reconstruction function with its argument tuple), or the
    serializer's own encoding. *)
Inductive Emitted :=
| Reduce_load_annotation (t : PyType) (args : option (list PyType))
| Reduce_load_namedtuple (name : string) (field_types : list (string * PyType))
| Emit_custom (tag : string) (key : string)
| Emit_default (key : string).

(** An object that reaches [Pickler.save], with the results of the reflection
    calls the module makes on it. *)
Inductive ObjKind :=
| KNamedTuple (nt : NamedTuple)
| KAnnotation (t : PyType)
| KOther.

Record PyObj := {
  obj_kind : ObjKind;
  obj_isclass : bool;           (* inspect.isclass(obj) *)
  obj_ident : string;           (* the object itself, as a dictionary key *)
  obj_class : string;           (* type(obj), as a dictionary key *)
  obj_mro : list (string * string);
    (* (t.__module__, t.__name__) for t in inspect.getmro(obj_type) *)
  obj_module : option Module    (* inspect.getmodule(obj) *)
}.

Definition GenericMeta : string := "typing.GenericMeta".

(** [type(obj)]: an annotation is an instance of [GenericMeta]. *)
Definition type_of (obj : PyObj) : string :=
  match obj_kind obj with
  | KAnnotation _ => GenericMeta
  | _ => obj_class obj
  end.

(** ** The process state *)

Record World := {
  dict_objects : gmap nat (gmap string Handler);
    (* the dictionaries that serve as dispatch tables, by identity *)
  Pickler_dispatch : nat;       (* dill.Pickler.dispatch *)
  Pickler_save : SaveFn;        (* dill.Pickler.save *)
  pickled : list Emitted;       (* what the picklers have written *)
  _CUSTOM_DISPATCH : gmap string Handler;
  _contexts : gmap string nat;
  context_objects : gmap nat AcumosContext;
    (* the AcumosContext instances, by identity *)
  sys_modules : gmap string Module;
  fs_dirs : gset string;
  fs_files : gmap string FileContent;
  next_class_id : nat
}.

Definition set_dict_objects (f : gmap nat (gmap string Handler) -> gmap nat (gmap string Handler)) (w : World) : World :=
  {| dict_objects := f (dict_objects w); Pickler_dispatch := Pickler_dispatch w;
     Pickler_save := Pickler_save w; pickled := pickled w;
     _CUSTOM_DISPATCH := _CUSTOM_DISPATCH w; _contexts := _contexts w;
     context_objects := context_objects w; sys_modules := sys_modules w;
     fs_dirs := fs_dirs w; fs_files := fs_files w;
     next_class_id := next_class_id w |}.

Definition set_Pickler_dispatch (l : nat) (w : World) : World :=
  {| dict_objects := dict_objects w; Pickler_dispatch := l;
     Pickler_save := Pickler_save w; pickled := pickled w;
     _CUSTOM_DISPATCH := _CUSTOM_DISPATCH w; _contexts := _contexts w;
     context_objects := context_objects w; sys_modules := sys_modules w;
     fs_dirs := fs_dirs w; fs_files := fs_files w;
     next_class_id := next_class_id w |}.

Definition set_Pickler_save (f : SaveFn) (w : World) : World :=
  {| dict_objects := dict_objects w; Pickler_dispatch := Pickler_dispatch w;
     Pickler_save := f; pickled := pickled w;
     _CUSTOM_DISPATCH := _CUSTOM_DISPATCH w; _contexts := _contexts w;
     context_objects := context_objects w; sys_modules := sys_modules w;
     fs_dirs := fs_dirs w; fs_files := fs_files w;
     next_class_id := next_class_id w |}.

Definition set_pickled (f : list Emitted -> list Emitted) (w : World) : World :=
  {| dict_objects := dict_objects w; Pickler_dispatch := Pickler_dispatch w;
     Pickler_save := Pickler_save w; pickled := f (pickled w);
     _CUSTOM_DISPATCH := _CUSTOM_DISPATCH w; _contexts := _contexts w;
     context_objects := context_objects w; sys_modules := sys_modules w;
     fs_dirs := fs_dirs w; fs_files := fs_files w;
     next_class_id := next_class_id w |}.

Definition set_CUSTOM_DISPATCH (d : gmap string Handler) (w : World) : World :=
  {| dict_objects := dict_objects w; Pickler_dispatch := Pickler_dispatch w;
     Pickler_save := Pickler_save w; pickled := pickled w;
     _CUSTOM_DISPATCH := d; _contexts := _contexts w;
     context_objects := context_objects w; sys_modules := sys_modules w;
     fs_dirs := fs_dirs w; fs_files := fs_files w;
     next_class_id := next_class_id w |}.

Definition set_contexts (f : gmap string nat -> gmap string nat) (w : World) : World :=
  {| dict_objects := dict_objects w; Pickler_dispatch := Pickler_dispatch w;
     Pickler_save := Pickler_save w; pickled := pickled w;
     _CUSTOM_DISPATCH := _CUSTOM_DISPATCH w; _contexts := f (_contexts w);
     context_objects := context_objects w; sys_modules := sys_modules w;
     fs_dirs := fs_dirs w; fs_files := fs_files w;
     next_class_id := next_class_id w |}.

Definition set_context_objects (f : gmap nat AcumosContext -> gmap nat AcumosContext) (w : World) : World :=
  {| dict_objects := dict_objects w; Pickler_dispatch := Pickler_dispatch w;
     Pickler_save := Pickler_save w; pickled := pickled w;
     _CUSTOM_DISPATCH := _CUSTOM_DISPATCH w; _contexts := _contexts w;
     context_objects := f (context_objects w); sys_modules := sys_modules w;
     fs_dirs := fs_dirs w; fs_files := fs_files w;
     next_class_id := next_class_id w |}.

Definition set_fs_dirs (f : gset string -> gset string) (w : World) : World :=
  {| dict_objects := dict_objects w; Pickler_dispatch := Pickler_dispatch w;
     Pickler_save := Pickler_save w; pickled := pickled w;
     _CUSTOM_DISPATCH := _CUSTOM_DISPATCH w; _contexts := _contexts w;
     context_objects := context_objects w; sys_modules := sys_modules w;
     fs_dirs := f (fs_dirs w); fs_files := fs_files w;
     next_class_id := next_class_id w |}.

Definition set_fs_files (f : gmap string FileContent -> gmap string FileContent) (w : World) : World :=
  {| dict_objects := dict_objects w; Pickler_dispatch := Pickler_dispatch w;
     Pickler_save := Pickler_save w; pickled := pickled w;
     _CUSTOM_DISPATCH := _CUSTOM_DISPATCH w; _contexts := _contexts w;
     context_objects := context_objects w; sys_modules := sys_modules w;
     fs_dirs := fs_dirs w; fs_files := f (fs_files w);
     next_class_id := next_class_id w |}.

Definition set_next_class_id (n : nat) (w : World) : World :=
  {| dict_objects := dict_objects w; Pickler_dispatch := Pickler_dispatch w;
     Pickler_save := Pickler_save w; pickled := pickled w;
     _CUSTOM_DISPATCH := _CUSTOM_DISPATCH w; _contexts := _contexts w;
     context_objects := context_objects w; sys_modules := sys_modules w;
     fs_dirs := fs_dirs w; fs_files := fs_files w;
     next_class_id := n |}.

(** ** The monad of statements *)

Definition M (A : Type) : Type := World -> Result A * World.

Global Instance M_ret : MRet M := fun A a w => (Ok a, w).

Global Instance M_bind : MBind M := fun A B f m w =>
  match m w with
  | (Ok a, w') => f a w'
  | (Raise e, w') => (Raise e, w')
  end.

Definition raise {A} (e : PyExn) : M A := fun w => (Raise e, w).
Definition get_world : M World := fun w => (Ok w, w).
Definition modify (f : World -> World) : M unit := fun w => (Ok (), f w).

(** [try: body finally: final].  An exception of [final] replaces whatever
    [body] produced; otherwise the outcome of [body] stands. *)
Definition try_finally {A} (body : M A) (final : M unit) : M A := fun w =>
  let (r, w1) := body w in
  match final w1 with
  | (Ok _, w2) => (r, w2)
  | (Raise e, w2) => (Raise e, w2)
  end.

(** ** Strings and paths *)

(** [s.partition('.')[0]]: the text before the first dot. *)
Fixpoint partition_dot (s : string) : string :=
  match s with
  | EmptyString => EmptyString
  | String c rest =>
      if Ascii.eqb c "."%char then EmptyString else String c (partition_dot rest)
  end.

Fixpoint ends_with_slash (s : string) : bool :=
  match s with
  | EmptyString => false
  | String c EmptyString => Ascii.eqb c "/"%char
  | String _ rest => ends_with_slash rest
  end.

(** [os.path.join] of two components. *)
Definition path_join (a b : string) : string :=
  match b with
  | String "/"%char _ => b
  | _ => if decide (a = EmptyString) then b
         else if ends_with_slash a then a ++ b else a ++ "/" ++ b
  end.

Arguments path_join : simpl never.

(** [p] is the directory [root] or lies below it. *)
Definition is_under (root p : string) : bool :=
  bool_decide (p = root) || String.prefix (root ++ "/") p.

Definition isdir (p : string) (w : World) : bool := bool_decide (p ∈ fs_dirs w).
Definition isfile (p : string) (w : World) : bool :=
  bool_decide (is_Some (fs_files w !! p)).

(** ** Module constants *)

Definition _DEFAULT_MODULES : list string := ["gcumos"; "dill"].
Definition _BLACKLIST : gset string := {["builtins"]}.
Definition _DEFAULT : string := "default".

(** ** The dispatch table *)

(** The dictionary [dill.Pickler.dispatch] refers to at the moment. *)
Definition dispatch (w : World) : gmap string Handler :=
  dict_objects w !!! Pickler_dispatch w.

(** [dill.Pickler.dispatch[t] = f] *)
Definition dispatch_setitem (t : string) (f : Handler) : M unit :=
  modify (fun w => set_dict_objects <[Pickler_dispatch w := <[t := f]> (dispatch w)]> w).

(** [dill.Pickler.dispatch.pop(t)] *)
Definition dispatch_pop (t : string) : M Handler := fun w =>
  match dispatch w !! t with
  | Some f => (Ok f, set_dict_objects <[Pickler_dispatch w := delete t (dispatch w)]> w)
  | None => (Raise (KeyError t), w)
  end.

(** [copy.deepcopy(dill.Pickler.dispatch)]: a new dictionary with the same
    entries (functions are copied by reference). *)
Definition deepcopy_dispatch : M nat := fun w =>
  let l := fresh (dom (dict_objects w)) in
  (Ok l, set_dict_objects <[l := dispatch w]> w).

Definition _revert_dispatch {A} (t : string) (body : M A) : M A :=
  f ← dispatch_pop t;
  try_finally body (dispatch_setitem t f).

(** [pickler.save_reduce(func, args, obj=obj)], as far as this module is
    concerned: the reduction is written out. *)
Definition save_reduce (r : Emitted) : M unit :=
  modify (set_pickled (fun out => (out ++ [r])%list)).

(** ** The generic-annotation codec *)

(** [obj.__origin__ in (Dict, List)].  A bare generic equals only itself. *)
Definition origin_in_Dict_List (obj : PyType) : bool :=
  match __origin__ obj with
  | Some typing_Dict | Some typing_List => true
  | _ => false
  end.

Definition _save_annotation (obj : PyType) : M unit :=
  if origin_in_Dict_List obj then
    match __origin__ obj with
    | Some t =>
        let args := __args__ obj in
        save_reduce (Reduce_load_annotation t args)
    | None => raise (AttributeError "__origin__")
    end
  else
    let t := obj in
    let args := None in
    _revert_dispatch GenericMeta (save_reduce (Reduce_load_annotation t args)).

(** [args[i]] on a tuple. *)
Definition getitem (args : list PyType) (i : nat) : Result PyType :=
  match args !! i with
  | Some a => Ok a
  | None => Raise IndexError
  end.

Definition _load_annotation (t : PyType) (args : option (list PyType)) : Result PyType :=
  match t, args with
  | typing_Dict, Some args =>
      match getitem args 0, getitem args 1 with
      | Ok a0, Ok a1 => Ok (Subscript typing_Dict [a0; a1])
      | Raise e, _ | _, Raise e => Raise e
      end
  | typing_List, Some args =>
      match getitem args 0 with
      | Ok a0 => Ok (Subscript typing_List [a0])
      | Raise e => Raise e
      end
  | _, _ => Ok t
  end.

(** [typing] accepts a subscription of [Dict] with two arguments and of [List]
    with one argument only. *)
Definition arity_ok (obj : PyType) : bool :=
  match obj with
  | Subscript typing_Dict args => bool_decide (length args = 2)
  | Subscript typing_List args => bool_decide (length args = 1)
  | _ => true
  end.

(** ** The named-record codec *)

(** Modelled from the spec: [gcumos.modeling._is_namedtuple], which is not part
    of the sources at hand.  The pre-save hook asks whether "the object is a
    named-record type" (spec 4.3 (c)). *)
Definition _is_namedtuple (obj : PyObj) : bool :=
  match obj_kind obj with
  | KNamedTuple _ => true
  | _ => false
  end.

(** Modelled from the spec: [gcumos.modeling.Empty], the "designated
    sentinel/empty record" (spec 4.2), a record type without fields. *)
Definition Empty : NamedTuple :=
  {| nt_id := 0; nt_name := "Empty"; nt_field_types := [] |}.

(** [obj is Empty]: identity of class objects. *)
Definition is_Empty (obj : PyObj) : bool :=
  match obj_kind obj with
  | KNamedTuple nt => bool_decide (nt_id nt = nt_id Empty)
  | _ => false
  end.

(** Modelled from the spec: [gcumos.utils.namedtuple_field_types], the
    "ordered field-name -> field-type mapping" of a record type (spec 3,
    NamedRecordDescriptor). *)
Definition namedtuple_field_types (obj : NamedTuple) : list (string * PyType) :=
  nt_field_types obj.

(** Modelled from the spec: [gcumos.modeling.create_namedtuple], which
    "reconstructs an equivalent record type from that name and field layout"
    (spec 4.2): a new class object with the given name and fields. *)
Definition create_namedtuple (name : string) (fields : list (string * PyType)) : M NamedTuple :=
  fun w =>
    let id := next_class_id w in
    (Ok {| nt_id := id; nt_name := name; nt_field_types := fields |},
     set_next_class_id (S id) w).

Definition _save_namedtuple (obj : NamedTuple) : M unit :=
  let field_types := namedtuple_field_types obj in
  save_reduce (Reduce_load_namedtuple (nt_name obj) field_types).

(** [field_types.items()] of an ordered mapping kept as an association list. *)
Definition items (field_types : list (string * PyType)) : list (string * PyType) :=
  field_types.

Definition _load_namedtuple (name : string) (field_types : list (string * PyType)) : M NamedTuple :=
  create_namedtuple name (map (fun '(k, v) => (k, v)) (items field_types)).

(** ** AcumosContext *)

Global Instance AcumosContext_inhabited : Inhabited AcumosContext :=
  populate {| _modules := ∅; _root_dir := EmptyString; _params_path := EmptyString;
              parameters := ∅ |}.

(** The instance a reference denotes. *)
Definition context_at (self : nat) (w : World) : AcumosContext :=
  context_objects w !!! self.

Definition update_context (self : nat) (f : AcumosContext -> AcumosContext) : M unit :=
  modify (fun w => set_context_objects <[self := f (context_at self w)]> w).

(** [importlib.import_module(name)] for the modules that are loaded: the
    entry of [sys.modules] under the name, returned as it is.  Finding and
    loading a module that is not in [sys.modules] is not modelled: such a
    name counts as one that cannot be imported ([ImportError], here [None]). *)
Definition import_module (name : string) (w : World) : option Module :=
  sys_modules w !! name.

Definition add_module (self : nat) (module : ModuleArg) : M unit :=
  module ← match module with
           | ArgStr name => fun w =>
               match import_module name w with
               | Some m => (Ok m, w)
               | None => (Raise (Exc_module_not_importable name), w)
               end
           | ArgModule m => mret m
           | ArgOther => raise Exc_module_bad_type
           end;
  update_context self (fun c =>
    {| _modules := {[module]} ∪ _modules c; _root_dir := _root_dir c;
       _params_path := _params_path c; parameters := parameters c |}).

Definition _load_params (self : nat) : M (gmap string JSON) := fun w =>
  let path := _params_path (context_at self w) in
  if isfile path w then
    match fs_files w !! path with
    | Some (JsonDocument doc) => (Ok doc, w)
    | _ => (Raise (JSONDecodeError path), w)
    end
  else (Ok ∅, w).

(** [open(path, 'w')] needs the directory of the file, which is the context
    root; [json.dump] then writes the document.  The other ways in which
    [open] can fail (the root is a regular file, the path is a directory) are
    not told apart. *)
Definition save_params (self : nat) : M unit := fun w =>
  let c := context_at self w in
  if isdir (_root_dir c) w then
    (Ok (), set_fs_files <[_params_path c := JsonDocument (parameters c)]> w)
  else (Raise (FileNotFoundError (_params_path c)), w).

Fixpoint for_each {A} (f : A -> M unit) (l : list A) : M unit :=
  match l with
  | [] => mret ()
  | x :: rest => f x ;; for_each f rest
  end.

(** [AcumosContext(root_dir)]; the result is the reference to the new
    instance. *)
Definition AcumosContext__init__ (root_dir : string) : M nat :=
  w ← get_world;
  if negb (isdir root_dir w) then raise (Exc_root_directory_missing root_dir)
  else
    let self := fresh (dom (context_objects w)) in
    modify (set_context_objects
      <[self := {| _modules := ∅; _root_dir := root_dir;
                   _params_path := path_join root_dir "context.json";
                   parameters := ∅ |}]>) ;;
    params ← _load_params self;
    update_context self (fun c =>
      {| _modules := _modules c; _root_dir := _root_dir c;
         _params_path := _params_path c; parameters := params |}) ;;
    for_each (fun mod_ => add_module self (ArgStr mod_)) _DEFAULT_MODULES ;;
    mret self.

(** Truth value of [mod.__package__]: [None] and the empty string are false. *)
Definition truthy (s : option string) : bool :=
  match s with
  | Some (String _ _) => true
  | _ => false
  end.

Definition modules (self : AcumosContext) : gset Module := _modules self.

Definition packages (self : AcumosContext) : gset Module :=
  filter (fun mod_ => truthy (__package__ mod_) = true) (_modules self).

Definition package_names (self : AcumosContext) : gset string :=
  set_map __name__ (packages self).

Definition scripts (self : AcumosContext) : gset Module :=
  filter (fun script => __name__ script ≠ "__main__")
         (filter (fun mod_ => truthy (__package__ mod_) = false) (_modules self)).

Definition script_names (self : AcumosContext) : gset string :=
  set_map __name__ (scripts self).

Definition get_context (name : string) : M nat := fun w =>
  match _contexts w !! name with
  | Some c => (Ok c, w)
  | None => (Raise (Exc_not_created name), w)
  end.

(** ** The pre-save hook *)

Definition _get_base_module (obj : PyObj) : M (option Module) :=
  match obj_module obj with
  | Some module => fun w =>
      let base_name := partition_dot (__name__ module) in
      match sys_modules w !! base_name with
      | Some base_module => (Ok (Some base_module), w)
      | None => (Raise (KeyError base_name), w)
      end
  | None => mret None
  end.

Definition _get_mro_paths (obj : PyObj) : list string :=
  map (fun '(module, name) => module ++ "." ++ name) (obj_mro obj).

Definition _catch_object (obj : PyObj) : M unit :=
  let obj_type := if obj_isclass obj then obj_ident obj else type_of obj in
  (w ← get_world;
   if bool_decide (is_Some (dispatch w !! obj_type)) then mret ()
   else
     for_each (fun path =>
       w ← get_world;
       match _CUSTOM_DISPATCH w !! path with
       | Some f => dispatch_setitem obj_type f
       | None => mret ()
       end) (_get_mro_paths obj)) ;;
  base_module ← _get_base_module obj;
  match base_module with
  | Some base_module =>
      if bool_decide (__name__ base_module ∈ _BLACKLIST) then mret ()
      else
        context ← get_context _DEFAULT;
        add_module context (ArgModule base_module)
  | None => mret ()
  end.

(** ** Pickler.save *)

(** dill's own [Pickler.save], as far as the module relies on it (spec 6,
    serializer boundary): the function registered for [type(obj)] in the
    dispatch table encodes the object; without one the serializer's default
    encoding is written. *)
Definition stock_save (obj : PyObj) : M unit :=
  w ← get_world;
  match dispatch w !! type_of obj with
  | Some H_save_annotation =>
      match obj_kind obj with
      | KAnnotation t => _save_annotation t
      | _ => raise (AttributeError "__origin__")
      end
  | Some (H_custom tag) => save_reduce (Emit_custom tag (type_of obj))
  | Some (H_stock _) | None => save_reduce (Emit_default (type_of obj))
  end.

(** Calling a value of [dill.Pickler.save].  The second case is the body of
    [wrapped_save]. *)
Fixpoint apply_save (f : SaveFn) (obj : PyObj) : M unit :=
  match f with
  | dill_save => stock_save obj
  | Wrapped pickler_save =>
      _catch_object obj ;;
      if _is_namedtuple obj && negb (is_Empty obj) then
        match obj_kind obj with
        | KNamedTuple nt => _save_namedtuple nt
        | _ => raise (AttributeError "__name__")
        end
      else apply_save pickler_save obj
  end.

Definition wrapped_save (pickler_save : SaveFn) (obj : PyObj) : M unit :=
  apply_save (Wrapped pickler_save) obj.

(** [pickler.save(obj)]: the attribute is looked up at the time of the call. *)
Definition Pickler_save_call (obj : PyObj) : M unit :=
  w ← get_world;
  apply_save (Pickler_save w) obj.

(** ** Context managers *)

Definition _patch_dill {A} (body : M A) : M A := fun w =>
  let dispatch := Pickler_dispatch w in
  let pickler_save := Pickler_save w in
  try_finally
    (copy ← deepcopy_dispatch;
     modify (set_Pickler_dispatch copy) ;;
     modify (set_Pickler_save (Wrapped pickler_save)) ;;
     body)
    (modify (set_Pickler_dispatch dispatch) ;;
     modify (set_Pickler_save pickler_save)) w.

(** [tempfile.TemporaryDirectory()]: a directory under a name that does not
    exist yet ... *)
Definition mkdtemp : M string := fun w =>
  let tdir := fresh (fs_dirs w ∪ dom (fs_files w)) in
  (Ok tdir, set_fs_dirs (fun dirs => {[tdir]} ∪ dirs) w).

(** ... removed with everything below it when the block is left. *)
Definition rmtree (tdir : string) : M unit :=
  modify (fun w =>
    set_fs_files (filter (fun kv => is_under tdir kv.1 = false))
      (set_fs_dirs (filter (fun d => is_under tdir d = false)) w)).

Definition _DirManager {A} (dir_ : option string) (body : string -> M A) : M A :=
  match dir_ with
  | Some dir_ =>
      w ← get_world;
      if negb (isdir dir_ w) then raise (Exc_rootdir_missing dir_)
      else body dir_
  | None =>
      tdir ← mkdtemp;
      try_finally (body tdir) (rmtree tdir)
  end.

(** [del _contexts[name]] *)
Definition del_contexts (name : string) : M unit := fun w =>
  match _contexts w !! name with
  | Some _ => (Ok (), set_contexts (delete name) w)
  | None => (Raise (KeyError name), w)
  end.

(** [with AcumosContextManager(rootdir, name) as context: body].  [body] is
    the block of the caller; it receives the reference to the context. *)
Definition AcumosContextManager {A} (rootdir : option string) (name : string)
    (body : nat -> M A) : M A :=
  _patch_dill
    (w ← get_world;
     if bool_decide (is_Some (_contexts w !! name)) then
       raise (Exc_already_created name)
     else
       try_finally
         (_DirManager rootdir (fun rootdir =>
            context ← AcumosContext__init__ rootdir;
            modify (set_contexts <[name := context]>) ;;
            r ← body context;
            save_params context ;;
            mret r))
         (del_contexts name)).

(** The statements the module executes when it is imported. *)
Definition module_init : M unit :=
  modify (set_contexts (fun _ => ∅)) ;;
  dispatch_setitem GenericMeta H_save_annotation ;;
  modify (set_CUSTOM_DISPATCH ∅).

(** ** Paths inside a context *)

(** [os.path.join(a, *p)]: the components are joined from left to right. *)
Definition path_join_all (a : string) (p : list string) : string :=
  fold_left path_join p a.

Fixpoint has_slash (s : string) : bool :=
  match s with
  | EmptyString => false
  | String c rest => Ascii.eqb c "/"%char || has_slash rest
  end.

(** [os.path.basename(p)]: the text after the last slash. *)
Fixpoint basename (p : string) : string :=
  match p with
  | EmptyString => EmptyString
  | String c rest =>
      if has_slash rest then basename rest
      else if Ascii.eqb c "/"%char then rest else p
  end.

Definition _add_file (subdir name : string) : string * (string * string) :=
  let file_abspath := path_join subdir name in
  let file_relpath := (basename subdir, name) in
  (file_abspath, file_relpath).

(** ** Creating directories *)

(** The errors of the file-system calls of [create_subdir]. *)
Inductive OSError :=
| FileExistsError (path : string)
| NotADirectoryError (path : string)
| NoSuchDirectoryError (path : string).
    (* FileNotFoundError for a missing directory *)

(** [s] without the prefix [pre], if it starts with it. *)
Fixpoint strip_prefix (pre s : string) : option string :=
  match pre, s with
  | EmptyString, _ => Some s
  | String a pre', String b s' =>
      if Ascii.eqb a b then strip_prefix pre' s' else None
  | String _ _, EmptyString => None
  end.

(** [os.path.exists(p)] *)
Definition path_exists (p : string) (w : World) : bool :=
  isdir p w || isfile p w.

(** [tempfile.mkdtemp(dir=dir_)]: a new directory [dir_/tmp...] under a name
    that does not exist yet. *)
Definition mkdtemp_in (dir_ : string) (w : World) : (OSError + string) * World :=
  if isdir dir_ w then
    let pfx := path_join dir_ "tmp" in
    let used : gset string :=
      list_to_set (omap (strip_prefix pfx) (elements (fs_dirs w ∪ dom (fs_files w)))) in
    let tdir := pfx ++ fresh used in
    (inr tdir, set_fs_dirs (fun dirs => {[tdir]} ∪ dirs) w)
  else if isfile dir_ w then (inl (NotADirectoryError dir_), w)
  else (inl (NoSuchDirectoryError dir_), w).

(** The directories above [s]: the prefixes of [s] that a slash follows, the
    nearest last.  [acc] is the part of the path already read. *)
Fixpoint parents_from (acc s : string) : list string :=
  match s with
  | EmptyString => []
  | String c rest =>
      (if Ascii.eqb c "/"%char && negb (bool_decide (acc = EmptyString))
          && negb (ends_with_slash acc)
       then [acc] else [])
      ++ parents_from (acc ++ String c EmptyString) rest
  end.

Definition parents (p : string) : list string := parents_from EmptyString p.

(** [os.mkdir(p)] *)
Definition mkdir (p : string) (w : World) : (OSError + unit) * World :=
  if path_exists p w then (inl (FileExistsError p), w)
  else
    match list.last (parents p) with
    | Some parent =>
        if isdir parent w then (inr (), set_fs_dirs (fun dirs => {[p]} ∪ dirs) w)
        else if isfile parent w then (inl (NotADirectoryError p), w)
        else (inl (NoSuchDirectoryError p), w)
    | None => (inr (), set_fs_dirs (fun dirs => {[p]} ∪ dirs) w)
    end.

(** The recursion of [os.makedirs] over the directories above the target,
    nearest first: it stops at the first one that exists and creates the
    others from the top down. *)
Fixpoint makedirs_heads (heads : list string) (w : World) : (OSError + unit) * World :=
  match heads with
  | [] => (inr (), w)
  | head :: above =>
      if path_exists head w then (inr (), w)
      else
        match makedirs_heads above w with
        | (inr _, w') => mkdir head w'
        | (inl e, w') => (inl e, w')
        end
  end.

(** [os.makedirs(name, exist_ok=exist_ok)] *)
Definition makedirs (name : string) (exist_ok : bool) (w : World) : (OSError + unit) * World :=
  match makedirs_heads (reverse (parents name)) w with
  | (inr _, w') =>
      match mkdir name w' with
      | (inl e, w'') =>
          if negb exist_ok || negb (isdir name w'') then (inl e, w'')
          else (inr (), w'')
      | ok => ok
      end
  | (inl e, w') => (inl e, w')
  end.

(** ** Directories and paths of AcumosContext *)

Definition create_subdir (self : nat) (paths : list string) (exist_ok : bool)
    (w : World) : (OSError + string) * World :=
  let c := context_at self w in
  match paths with
  | [] => mkdtemp_in (_root_dir c) w
  | _ =>
      let tdir := path_join_all (_root_dir c) paths in
      match makedirs tdir exist_ok w with
      | (inr _, w') => (inr tdir, w')
      | (inl e, w') => (inl e, w')
      end
  end.

Definition build_path (self : AcumosContext) (paths : list string) : string :=
  path_join_all (_root_dir self) paths.

Definition abspath (self : AcumosContext) : string := _root_dir self.

(** The property [basename] of the class. *)
Definition AcumosContext_basename (self : AcumosContext) : string :=
  basename (_root_dir self).

(** ** Concrete processes, for examples *)

Definition mod_gcumos : Module := {| __name__ := "gcumos"; __package__ := Some "gcumos" |}.
Definition mod_dill : Module := {| __name__ := "dill"; __package__ := Some "dill" |}.
Definition mod_builtins : Module := {| __name__ := "builtins"; __package__ := Some EmptyString |}.
Definition mod_A : Module := {| __name__ := "A"; __package__ := Some "A" |}.
Definition mod_A_b : Module := {| __name__ := "A.b"; __package__ := Some "A" |}.
Definition mod_S : Module := {| __name__ := "S"; __package__ := Some EmptyString |}.
Definition mod_main : Module := {| __name__ := "__main__"; __package__ := None |}.

(** A Python process in which dill has been imported but this module has not:
    dill's own dispatch table, its own [save], an existing directory [/work]. *)
Definition fresh_process : World :=
  {| dict_objects := {[ 0 := {[ "builtins.dict" := H_stock "save_module_dict" ]} ]};
     Pickler_dispatch := 0;
     Pickler_save := dill_save;
     pickled := [];
     _CUSTOM_DISPATCH := ∅;
     _contexts := ∅;
     context_objects := ∅;
     sys_modules :=
       list_to_map [("gcumos", mod_gcumos); ("dill", mod_dill);
                    ("builtins", mod_builtins); ("A", mod_A); ("A.b", mod_A_b);
                    ("S", mod_S); ("__main__", mod_main)];
     fs_dirs := {[ "/work" ]};
     fs_files := ∅;
     next_class_id := 10 |}.

(** The same process after [import gcumos.pickler]. *)
Definition imported_process : World := (module_init fresh_process).2.

(** * Vocabulary of the properties *)

(** ** Entering and leaving [_patch_dill] *)

(** The state in which the block of [with _patch_dill()] starts, and the state
    its [finally] clause leaves, given the state [w0] at entry. *)
Definition patch_enter (w : World) : World :=
  let l := fresh (dom (dict_objects w)) in
  set_Pickler_save (Wrapped (Pickler_save w))
    (set_Pickler_dispatch l (set_dict_objects <[l := dispatch w]> w)).

Definition patch_exit (w0 w : World) : World :=
  set_Pickler_save (Pickler_save w0) (set_Pickler_dispatch (Pickler_dispatch w0) w).

(** A computation is [table_local] when it leaves [dill.Pickler.dispatch]
    pointing where it did and writes to no dictionary but the one it points
    to; dictionaries it creates are new objects. *)
Definition table_local {A} (m : M A) : Prop :=
  ∀ w, Pickler_dispatch (m w).2 = Pickler_dispatch w
     ∧ dom (dict_objects w) ⊆ dom (dict_objects (m w).2)
     ∧ ∀ l, l ∈ dom (dict_objects w) → l ≠ Pickler_dispatch w →
            dict_objects (m w).2 !! l = dict_objects w !! l.

(** The block that [AcumosContextManager] runs inside [_patch_dill]. *)
Definition session_block {A} (rootdir : option string) (name : string)
    (body : nat → M A) : M A :=
  w ← get_world;
  if bool_decide (is_Some (_contexts w !! name)) then
    raise (Exc_already_created name)
  else
    try_finally
      (_DirManager rootdir (fun rootdir =>
         context ← AcumosContext__init__ rootdir;
         modify (set_contexts <[name := context]>) ;;
         r ← body context;
         save_params context ;;
         mret r))
      (del_contexts name).

(** A process in which a custom serializer is known for the import path
    [keras.Model], and an instance of a subclass of that class. *)
Definition custom_process : World :=
  set_CUSTOM_DISPATCH {[ "keras.Model" := H_custom "keras" ]} imported_process.

Definition keras_model : PyObj :=
  {| obj_kind := KOther; obj_isclass := false;
     obj_ident := "<model>"; obj_class := "A.b.MyModel";
     obj_mro := [("A.b", "MyModel"); ("keras", "Model"); ("builtins", "object")];
     obj_module := Some mod_A_b |}.

(** ** Opening and closing a session *)

(** When the name is free and the root directory is usable, the statements of
    [AcumosContextManager] before [yield] cannot fail.  [session_start] is the
    state in which the block of the caller then starts, [session_context] the
    context it is handed, and [session_finish] what the statements after
    [yield] make of the outcome of the block. *)

(** [json.load] of the file at [path], if there is one, succeeds. *)
Definition loadable (path : string) (w : World) : bool :=
  match fs_files w !! path with
  | Some (OtherContent _) => false
  | _ => true
  end.

(** What [_load_params] returns for a loadable parameter file. *)
Definition loaded_params (path : string) (w : World) : gmap string JSON :=
  match fs_files w !! path with
  | Some (JsonDocument doc) => doc
  | _ => ∅
  end.

(** The module set and the instance that [AcumosContext(root_dir)] builds. *)
Definition default_modules (w : World) : gset Module :=
  list_to_set (omap (fun name => sys_modules w !! name) (reverse _DEFAULT_MODULES)).

Definition new_context (root_dir : string) (w : World) : AcumosContext :=
  {| _modules := default_modules w;
     _root_dir := root_dir;
     _params_path := path_join root_dir "context.json";
     parameters := loaded_params (path_join root_dir "context.json") w |}.

(** Every name of [_DEFAULT_MODULES] can be imported. *)
Definition defaults_importable (w : World) : bool :=
  forallb (fun name => bool_decide (is_Some (sys_modules w !! name))) _DEFAULT_MODULES.

(** The name [tempfile.TemporaryDirectory()] picks in state [w], and the root
    directory of a session opened with [rootdir]. *)
Definition tempdir_name (w : World) : string := fresh (fs_dirs w ∪ dom (fs_files w)).

Definition session_root (rootdir : option string) (w : World) : string :=
  match rootdir with
  | Some d => d
  | None => tempdir_name w
  end.

(** The conditions under which the statements before [yield] succeed, given
    that the name is free. *)
Definition can_open (rootdir : option string) (w : World) : bool :=
  defaults_importable w
  && match rootdir with Some d => isdir d w | None => true end
  && loadable (path_join (session_root rootdir w) "context.json") w.

(** The reference of the context a session opened in state [w] creates. *)
Definition session_context (w : World) : nat := fresh (dom (context_objects w)).

(** [block_start] and [block_finish] describe the block inside
    [_patch_dill]; [session_start] and [session_finish] the whole statement. *)
Definition block_start (rootdir : option string) (name : string) (w : World) : World :=
  let w2 := match rootdir with
            | Some _ => w
            | None => set_fs_dirs (fun dirs => {[tempdir_name w]} ∪ dirs) w
            end in
  set_contexts <[name := session_context w]>
    (set_context_objects
       <[session_context w := new_context (session_root rootdir w) w]> w2).

Definition block_finish {A} (rootdir : option string) (name : string)
    (w0 : World) (r : Result A * World) : Result A * World :=
  let '(r1, w1) :=
    match r with
    | (Ok v, w) =>
        match save_params (session_context w0) w with
        | (Ok _, w') => (Ok v, w')
        | (Raise e, w') => (Raise e, w')
        end
    | (Raise e, w) => (Raise e, w)
    end in
  let w2 := match rootdir with
            | Some _ => w1
            | None => (rmtree (tempdir_name w0) w1).2
            end in
  match del_contexts name w2 with
  | (Ok _, w3) => (r1, w3)
  | (Raise e, w3) => (Raise e, w3)
  end.

Definition session_start (rootdir : option string) (name : string) (w : World) : World :=
  block_start rootdir name (patch_enter w).

Definition session_finish {A} (rootdir : option string) (name : string)
    (w0 : World) (r : Result A * World) : Result A * World :=
  let '(r', w') := block_finish rootdir name (patch_enter w0) r in
  (r', patch_exit w0 w').

(** The state inside a session named [default] of [imported_process]. *)
Definition in_session : World := session_start None "default" imported_process.


(** The files that remain when the temporary directory of the session, if it
    has one, is removed. *)
Definition cleanup (rootdir : option string) (w0 : World)
    (files : gmap string FileContent) : gmap string FileContent :=
  match rootdir with
  | Some _ => files
  | None => filter (fun kv => is_under (tempdir_name w0) kv.1 = false) files
  end.

(** ** Module discovery *)

(** The name contains a dot. *)
Fixpoint has_dot (s : string) : bool :=
  match s with
  | EmptyString => false
  | String c rest => Ascii.eqb c "."%char || has_dot rest
  end.

(** [sys.modules] maps every name to a module of that name. *)
Definition sys_modules_keyed (w : World) : Prop :=
  ∀ k m, sys_modules w !! k = Some m → __name__ m = k.

(** A computation that leaves the contexts, their registry and the module
    table alone. *)
Definition keeps_contexts {A} (m : M A) : Prop :=
  ∀ w, context_objects (m w).2 = context_objects w
     ∧ _contexts (m w).2 = _contexts w
     ∧ sys_modules (m w).2 = sys_modules w.

(** ** The dispatch table outside a session *)

(** The interceptor is installed: [dill.Pickler.save] is a [wrapped_save]. *)
Definition session_active (w : World) : bool :=
  match Pickler_save w with
  | Wrapped _ => true
  | dill_save => false
  end.

(** ** Sample objects *)

Definition Dict_str_int : PyType :=
  Subscript typing_Dict [Class "builtins.str"; Class "builtins.int"].

Definition Point : NamedTuple :=
  {| nt_id := 5; nt_name := "Point";
     nt_field_types := [("x", Class "builtins.float"); ("y", Class "builtins.float")] |}.

Definition Point_class : PyObj :=
  {| obj_kind := KNamedTuple Point; obj_isclass := true;
     obj_ident := "A.b.Point"; obj_class := "builtins.type";
     obj_mro := [("A.b", "Point"); ("builtins", "tuple"); ("builtins", "object")];
     obj_module := Some mod_A_b |}.

Definition List_annotation : PyObj :=
  {| obj_kind := KAnnotation typing_List; obj_isclass := true;
     obj_ident := "typing.List"; obj_class := GenericMeta;
     obj_mro := [("typing", "List"); ("builtins", "list"); ("builtins", "object")];
     obj_module := None |}.

Definition script_function : PyObj :=
  {| obj_kind := KOther; obj_isclass := false;
     obj_ident := "S.helper"; obj_class := "builtins.function";
     obj_mro := [("builtins", "function"); ("builtins", "object")];
     obj_module := Some mod_S |}.

(** A block that edits a parameter of its context. *)
Definition set_parameter (key : string) (value : JSON) (c : nat) : M unit :=
  update_context c (fun ctx =>
    {| _modules := _modules ctx; _root_dir := _root_dir ctx;
       _params_path := _params_path ctx;
       parameters := <[key := value]> (parameters ctx) |}).

Definition sample_context : AcumosContext :=
  {| _modules := {[mod_gcumos; mod_dill; mod_A; mod_S; mod_main]};
     _root_dir := "/work"; _params_path := "/work/context.json";
     parameters := ∅ |}.

(** ** Further vocabulary *)

(** A directory name as one path component: not empty, without a slash, and
    neither [.] nor [..]. *)
Definition plain_name (d : string) : bool :=
  negb (bool_decide (d = EmptyString)) && negb (has_slash d)
  && negb (bool_decide (d = ".")) && negb (bool_decide (d = "..")).

(** The two halves of [_catch_object]: the lazy registration of a codec and
    the bookkeeping of the base module. *)
Definition hook_registration (obj_type : string) (paths : list string) : M unit :=
  w ← get_world;
  if bool_decide (is_Some (dispatch w !! obj_type)) then mret ()
  else
    for_each (fun path =>
      w ← get_world;
      match _CUSTOM_DISPATCH w !! path with
      | Some f => dispatch_setitem obj_type f
      | None => mret ()
      end) paths.

Definition hook_bookkeeping (obj : PyObj) : M unit :=
  base_module ← _get_base_module obj;
  match base_module with
  | Some base_module =>
      if bool_decide (__name__ base_module ∈ _BLACKLIST) then mret ()
      else
        context ← get_context _DEFAULT;
        add_module context (ArgModule base_module)
  | None => mret ()
  end.

(** A process whose parameter file in [/work] is not a JSON document. *)
Definition broken_process : World :=
  set_fs_files <["/work/context.json" := OtherContent "not json"]> imported_process.

(** [try: m except Exception as e: ...]: the outcome of [m] as a value. *)
Definition attempt {A} (m : M A) : M (Result A) := fun w =>
  ((Ok (m w).1), (m w).2).

(** * Properties *)

Lemma _patch_dill_eq {A} (body : M A) (w : World) :
  _patch_dill body w = ((body (patch_enter w)).1, patch_exit w (body (patch_enter w)).2).
Proof.
  unfold _patch_dill, try_finally, mbind, M_bind, deepcopy_dispatch, modify, patch_enter.
  simpl. by destruct (body _) as [r w1].
Qed.

Lemma patch_enter_dispatch (w : World) : dispatch (patch_enter w) = dispatch w.
Proof.
  unfold dispatch, patch_enter. simpl. by rewrite lookup_total_insert_eq.
Qed.

Lemma patch_enter_fresh (w : World) :
  Pickler_dispatch (patch_enter w) ∉ dom (dict_objects w).
Proof. unfold patch_enter. simpl. apply is_fresh. Qed.

Lemma local_frame {A} (m : M A) :
  (∀ w, dict_objects (m w).2 = dict_objects w
      ∧ Pickler_dispatch (m w).2 = Pickler_dispatch w) →
  table_local m.
Proof.
  intros H w. destruct (H w) as [Hd Hp]. rewrite Hd, Hp. done.
Qed.

Lemma local_ret {A} (a : A) : table_local (mret a).
Proof. by apply local_frame. Qed.

Lemma local_raise {A} (e : PyExn) : table_local (@raise A e).
Proof. by apply local_frame. Qed.

Lemma local_get_world : table_local get_world.
Proof. by apply local_frame. Qed.

Lemma local_seq_world (w w1 w2 : World) :
  Pickler_dispatch w1 = Pickler_dispatch w →
  dom (dict_objects w) ⊆ dom (dict_objects w1) →
  (∀ l, l ∈ dom (dict_objects w) → l ≠ Pickler_dispatch w →
        dict_objects w1 !! l = dict_objects w !! l) →
  Pickler_dispatch w2 = Pickler_dispatch w1 →
  dom (dict_objects w1) ⊆ dom (dict_objects w2) →
  (∀ l, l ∈ dom (dict_objects w1) → l ≠ Pickler_dispatch w1 →
        dict_objects w2 !! l = dict_objects w1 !! l) →
  Pickler_dispatch w2 = Pickler_dispatch w
  ∧ dom (dict_objects w) ⊆ dom (dict_objects w2)
  ∧ ∀ l, l ∈ dom (dict_objects w) → l ≠ Pickler_dispatch w →
         dict_objects w2 !! l = dict_objects w !! l.
Proof.
  intros Hp1 Hd1 Hl1 Hp2 Hd2 Hl2. split_and!.
  - congruence.
  - set_solver.
  - intros l Hl Hne. rewrite Hl2, Hl1; [done..| set_solver | congruence].
Qed.

Lemma local_bind {A B} (m : M A) (f : A → M B) :
  table_local m → (∀ a, table_local (f a)) → table_local (m ≫= f).
Proof.
  intros Hm Hf w. unfold mbind, M_bind.
  destruct (Hm w) as (Hp1 & Hd1 & Hl1).
  destruct (m w) as [[a|e] w1]; simpl in *; [|done].
  destruct (Hf a w1) as (Hp2 & Hd2 & Hl2).
  by apply (local_seq_world w w1).
Qed.

Lemma local_try_finally {A} (body : M A) (final : M unit) :
  table_local body → table_local final → table_local (try_finally body final).
Proof.
  intros Hb Hf w. unfold try_finally.
  destruct (Hb w) as (Hp1 & Hd1 & Hl1).
  destruct (body w) as [r w1]; simpl in *.
  destruct (Hf w1) as (Hp2 & Hd2 & Hl2).
  destruct (final w1) as [[[]|e] w2]; simpl in *;
    by apply (local_seq_world w w1).
Qed.

Lemma local_for_each {A} (f : A → M unit) (l : list A) :
  (∀ a, table_local (f a)) → table_local (for_each f l).
Proof.
  intros Hf. induction l as [|a l IH]; simpl.
  - apply local_ret.
  - apply local_bind; [apply Hf | intros _; apply IH].
Qed.

Lemma local_dispatch_setitem (t : string) (f : Handler) :
  table_local (dispatch_setitem t f).
Proof.
  intros w. unfold dispatch_setitem, modify. simpl. split_and!.
  - done.
  - rewrite dom_insert_L. set_solver.
  - intros l _ Hne. by rewrite lookup_insert_ne.
Qed.

Lemma local_dispatch_pop (t : string) : table_local (dispatch_pop t).
Proof.
  intros w. unfold dispatch_pop. destruct (dispatch w !! t); simpl; [|done].
  split_and!.
  - done.
  - rewrite dom_insert_L. set_solver.
  - intros l _ Hne. by rewrite lookup_insert_ne.
Qed.

Lemma local_revert_dispatch {A} (t : string) (body : M A) :
  table_local body → table_local (_revert_dispatch t body).
Proof.
  intros Hb. unfold _revert_dispatch.
  apply local_bind; [apply local_dispatch_pop|].
  intros f. apply local_try_finally; [done | apply local_dispatch_setitem].
Qed.

Lemma local_save_reduce (r : Emitted) : table_local (save_reduce r).
Proof. by apply local_frame. Qed.

Lemma local_save_annotation (obj : PyType) : table_local (_save_annotation obj).
Proof.
  unfold _save_annotation. destruct (origin_in_Dict_List obj).
  - destruct (__origin__ obj); [apply local_save_reduce | apply local_raise].
  - apply local_revert_dispatch, local_save_reduce.
Qed.

Lemma local_add_module (self : nat) (module : ModuleArg) :
  table_local (add_module self module).
Proof.
  apply local_frame. intros w. unfold add_module, mbind, M_bind.
  destruct module as [name|m|]; simpl; try done.
  unfold import_module. by destruct (sys_modules w !! name).
Qed.

Lemma local_get_context (name : string) : table_local (get_context name).
Proof.
  apply local_frame. intros w. unfold get_context.
  by destruct (_contexts w !! name).
Qed.

Lemma local_get_base_module (obj : PyObj) : table_local (_get_base_module obj).
Proof.
  apply local_frame. intros w. unfold _get_base_module.
  destruct (obj_module obj); [|done]. by destruct (sys_modules w !! _).
Qed.

Lemma local_catch_object (obj : PyObj) : table_local (_catch_object obj).
Proof.
  unfold _catch_object. apply local_bind.
  - apply local_bind; [apply local_get_world|]. intros w.
    destruct (bool_decide _); [apply local_ret|].
    apply local_for_each. intros path.
    apply local_bind; [apply local_get_world|]. intros w'.
    destruct (_CUSTOM_DISPATCH w' !! path);
      [apply local_dispatch_setitem | apply local_ret].
  - intros _. apply local_bind; [apply local_get_base_module|].
    intros [base_module|]; [|apply local_ret].
    destruct (bool_decide _); [apply local_ret|].
    apply local_bind; [apply local_get_context|].
    intros context. apply local_add_module.
Qed.

Lemma local_stock_save (obj : PyObj) : table_local (stock_save obj).
Proof.
  unfold stock_save. apply local_bind; [apply local_get_world|]. intros w.
  destruct (dispatch w !! type_of obj) as [[| |]|]; try apply local_save_reduce.
  destruct (obj_kind obj); try apply local_raise. apply local_save_annotation.
Qed.

Lemma local_apply_save (f : SaveFn) (obj : PyObj) : table_local (apply_save f obj).
Proof.
  induction f as [|pickler_save IH]; simpl.
  - apply local_stock_save.
  - apply local_bind; [apply local_catch_object|]. intros _.
    destruct (_is_namedtuple obj && negb (is_Empty obj)); [|done].
    destruct (obj_kind obj); try apply local_raise. apply local_save_reduce.
Qed.

Lemma local_Pickler_save_call (obj : PyObj) : table_local (Pickler_save_call obj).
Proof.
  unfold Pickler_save_call. apply local_bind; [apply local_get_world|].
  intros w. apply local_apply_save.
Qed.

(** A nested [_patch_dill] block is local as a whole, and moreover leaves the
    dictionary that was current at its entry as it was. *)
Lemma patch_dill_keeps_tables {A} (body : M A) (w : World) :
  table_local body →
  Pickler_dispatch (_patch_dill body w).2 = Pickler_dispatch w
  ∧ Pickler_save (_patch_dill body w).2 = Pickler_save w
  ∧ dom (dict_objects w) ⊆ dom (dict_objects (_patch_dill body w).2)
  ∧ ∀ l, l ∈ dom (dict_objects w) →
         dict_objects (_patch_dill body w).2 !! l = dict_objects w !! l.
Proof.
  intros Hb. rewrite _patch_dill_eq. simpl.
  destruct (Hb (patch_enter w)) as (Hp & Hd & Hl).
  pose proof (patch_enter_fresh w) as Hfresh.
  set (w1 := (body (patch_enter w)).2) in *.
  assert (dom (dict_objects w) ⊆ dom (dict_objects (patch_enter w))) as Hsub.
  { unfold patch_enter. simpl. rewrite dom_insert_L. set_solver. }
  split_and!; [done | done | |].
  - unfold patch_exit. simpl. set_solver.
  - intros l Hin. unfold patch_exit. simpl. rewrite Hl.
    + unfold patch_enter. simpl. rewrite lookup_insert_ne; [done|].
      intros <-. by apply Hfresh.
    + set_solver.
    + intros ->. by apply Hfresh.
Qed.

Lemma local_patch_dill {A} (body : M A) :
  table_local body → table_local (_patch_dill body).
Proof.
  intros Hb w. destruct (patch_dill_keeps_tables body w Hb) as (Hp & _ & Hd & Hl).
  split_and!; [done | done |]. intros l Hin _. by apply Hl.
Qed.

Lemma local_update_context (self : nat) (f : AcumosContext → AcumosContext) :
  table_local (update_context self f).
Proof. by apply local_frame. Qed.

Lemma local_load_params (self : nat) : table_local (_load_params self).
Proof.
  apply local_frame. intros w. unfold _load_params.
  destruct (isfile _ w); [|done]. by destruct (fs_files w !! _) as [[]|].
Qed.

Lemma local_save_params (self : nat) : table_local (save_params self).
Proof.
  apply local_frame. intros w. unfold save_params. by destruct (isdir _ w).
Qed.

Lemma local_AcumosContext__init__ (root_dir : string) :
  table_local (AcumosContext__init__ root_dir).
Proof.
  unfold AcumosContext__init__.
  apply local_bind; [apply local_get_world|]. intros w.
  destruct (negb _); [apply local_raise|].
  apply local_bind; [by apply local_frame|]. intros _.
  apply local_bind; [apply local_load_params|]. intros params.
  apply local_bind; [apply local_update_context|]. intros _.
  apply local_bind; [|intros _; apply local_ret].
  apply local_for_each. intros mod_. apply local_add_module.
Qed.

Lemma local_del_contexts (name : string) : table_local (del_contexts name).
Proof.
  apply local_frame. intros w. unfold del_contexts.
  by destruct (_contexts w !! name).
Qed.

Lemma local_DirManager {A} (dir_ : option string) (body : string → M A) :
  (∀ d, table_local (body d)) → table_local (_DirManager dir_ body).
Proof.
  intros Hb. destruct dir_ as [d|]; simpl.
  - apply local_bind; [apply local_get_world|]. intros w.
    destruct (negb _); [apply local_raise | apply Hb].
  - apply local_bind; [by apply local_frame|]. intros tdir.
    apply local_try_finally; [apply Hb | by apply local_frame].
Qed.

Lemma AcumosContextManager_eq {A} rootdir name (body : nat → M A) :
  AcumosContextManager rootdir name body
  = _patch_dill (session_block rootdir name body).
Proof. reflexivity. Qed.

Lemma local_session_block {A} (rootdir : option string) (name : string)
    (body : nat → M A) :
  (∀ c, table_local (body c)) →
  table_local (session_block rootdir name body).
Proof.
  intros Hb. apply local_bind; [apply local_get_world|]. intros w.
  destruct (bool_decide _); [apply local_raise|].
  apply local_try_finally; [|apply local_del_contexts].
  apply local_DirManager. intros d.
  apply local_bind; [apply local_AcumosContext__init__|]. intros context.
  apply local_bind; [by apply local_frame|]. intros _.
  apply local_bind; [apply Hb|]. intros r.
  apply local_bind; [apply local_save_params | intros _; apply local_ret].
Qed.

Lemma local_AcumosContextManager {A} (rootdir : option string) (name : string)
    (body : nat → M A) :
  (∀ c, table_local (body c)) →
  table_local (AcumosContextManager rootdir name body).
Proof.
  intros Hb. unfold AcumosContextManager.
  by apply local_patch_dill, local_session_block.
Qed.

(** ** The interceptor is uninstalled on every exit path *)

(** C1.  Whatever the block of a session does, and whether it returns or
    raises, [dill.Pickler.dispatch] and [dill.Pickler.save] are, after
    [_patch_dill] (and so after [AcumosContextManager]), the very objects they
    were at entry.  When the block works on the dispatch table through
    [dill.Pickler.dispatch] only, as every function of this module does, the
    dictionaries that existed at entry have their entries unchanged as well:
    lazy registrations went to the deep copy, which nothing refers to after
    exit. *)
Theorem patch_dill_restores_snapshots :
  (∀ A (body : M A) (w : World),
      Pickler_dispatch (_patch_dill body w).2 = Pickler_dispatch w
      ∧ Pickler_save (_patch_dill body w).2 = Pickler_save w)
  ∧ (∀ A rootdir name (body : nat → M A) (w : World),
      Pickler_dispatch (AcumosContextManager rootdir name body w).2 = Pickler_dispatch w
      ∧ Pickler_save (AcumosContextManager rootdir name body w).2 = Pickler_save w)
  ∧ (∀ A (body : M A) (w : World),
      table_local body →
      Pickler_dispatch w ∈ dom (dict_objects w) →
      dispatch (_patch_dill body w).2 = dispatch w
      ∧ ∀ l, l ∈ dom (dict_objects w) →
             dict_objects (_patch_dill body w).2 !! l = dict_objects w !! l)
  ∧ (∀ A rootdir name (body : nat → M A) (w : World),
      (∀ c, table_local (body c)) →
      Pickler_dispatch w ∈ dom (dict_objects w) →
      dispatch (AcumosContextManager rootdir name body w).2 = dispatch w
      ∧ ∀ l, l ∈ dom (dict_objects w) →
             dict_objects (AcumosContextManager rootdir name body w).2 !! l
             = dict_objects w !! l).
Proof.
  assert (∀ A (body : M A) (w : World),
      Pickler_dispatch (_patch_dill body w).2 = Pickler_dispatch w
      ∧ Pickler_save (_patch_dill body w).2 = Pickler_save w) as Hattr.
  { intros A body w. by rewrite _patch_dill_eq. }
  assert (∀ A (body : M A) (w : World),
      table_local body →
      Pickler_dispatch w ∈ dom (dict_objects w) →
      dispatch (_patch_dill body w).2 = dispatch w
      ∧ ∀ l, l ∈ dom (dict_objects w) →
             dict_objects (_patch_dill body w).2 !! l = dict_objects w !! l) as Hcont.
  { intros A body w Hb Hin.
    destruct (patch_dill_keeps_tables body w Hb) as (Hp & _ & _ & Hl).
    split; [|done].
    unfold dispatch. rewrite Hp.
    unfold lookup_total, map_lookup_total. by rewrite Hl. }
  split_and!; [done | intros; apply Hattr | done |].
  intros A rootdir name body w Hb. apply Hcont. by apply local_session_block.
Qed.

(** In [custom_process] a session that saves [keras_model] registers the
    custom serializer lazily while it runs, and the process-wide table shows
    nothing of it afterwards. *)
Lemma patch_dill_restores_snapshots_witness :
  (∀ c : nat, table_local ((fun _ => Pickler_save_call keras_model) c))
  ∧ Pickler_dispatch custom_process ∈ dom (dict_objects custom_process)
  ∧ dispatch (AcumosContextManager None "default"
                (fun _ => Pickler_save_call keras_model) custom_process).2
    = dispatch custom_process.
Proof.
  assert (Pickler_dispatch custom_process ∈ dom (dict_objects custom_process)) as Hin.
  { apply elem_of_dom. eexists. vm_compute. reflexivity. }
  assert (∀ c : nat, table_local ((fun _ => Pickler_save_call keras_model) c)) as Hl.
  { intros _. apply local_Pickler_save_call. }
  split_and!; [exact Hl | exact Hin |].
  exact (proj1 (proj2 (proj2 (proj2 patch_dill_restores_snapshots))
                  unit None "default" (fun _ => Pickler_save_call keras_model)
                  custom_process Hl Hin)).
Defined.

(** ** Opening and closing a session *)

Lemma load_params_ok self w :
  loadable (_params_path (context_at self w)) w = true →
  _load_params self w = (Ok (loaded_params (_params_path (context_at self w)) w), w).
Proof.
  unfold loadable, _load_params, loaded_params, isfile. intros H.
  by destruct (fs_files w !! _) as [[doc|text]|] eqn:E.
Qed.

Lemma AcumosContext__init__ok root_dir w gm dm :
  isdir root_dir w = true →
  loadable (path_join root_dir "context.json") w = true →
  sys_modules w !! "gcumos" = Some gm →
  sys_modules w !! "dill" = Some dm →
  AcumosContext__init__ root_dir w =
    (Ok (fresh (dom (context_objects w))),
     set_context_objects
       <[fresh (dom (context_objects w)) :=
           new_context root_dir w]> w).
Proof.
  intros Hdir Hload Hg Hd.
  unfold new_context, default_modules. simpl. rewrite Hg, Hd. simpl.
  unfold AcumosContext__init__, mbind, M_bind, get_world. rewrite Hdir. simpl.
  set (self := fresh (dom (context_objects w))).
  set (path := path_join root_dir "context.json") in *.
  rewrite load_params_ok.
  2:{ unfold context_at. simpl. rewrite lookup_total_insert_eq. simpl.
      unfold loadable in *. simpl. done. }
  unfold context_at. simpl. rewrite lookup_total_insert_eq. simpl.
  unfold add_module, mbind, M_bind, import_module. simpl. rewrite Hg. simpl.
  unfold update_context, modify, context_at. simpl.
  rewrite Hd. simpl.
  unfold mret, M_ret. f_equal.
  destruct w. unfold set_context_objects. simpl. f_equal.
  rewrite !lookup_total_insert_eq. simpl.
  rewrite !insert_insert_eq. unfold loaded_params. simpl. done.
Qed.

Lemma session_block_eq {A} rootdir name (body : nat → M A) w :
  _contexts w !! name = None →
  can_open rootdir w = true →
  session_block rootdir name body w
  = block_finish rootdir name w (body (session_context w) (block_start rootdir name w)).
Proof.
  intros Hfree Hopen.
  unfold can_open, defaults_importable in Hopen. simpl in Hopen.
  rewrite !andb_true_iff in Hopen.
  destruct Hopen as [[[[gm Hg]%bool_decide_eq_true [[dm Hd]%bool_decide_eq_true _]] Hdir] Hload].
  unfold session_block.
  unfold mbind at 1, M_bind at 1, get_world at 1.
  rewrite bool_decide_eq_false_2; [|rewrite Hfree; by intros [? ?]].
  unfold try_finally at 1, block_finish, block_start.
  destruct rootdir as [d|]; simpl in *.
  - unfold mbind at 1, M_bind at 1, get_world at 1.
    rewrite Hdir. simpl.
    unfold mbind at 1, M_bind at 1.
    rewrite (AcumosContext__init__ok d w gm dm); [|done..].
    unfold mbind at 1, M_bind at 1, modify at 1.
    unfold mbind at 1, M_bind at 1. fold (session_context w).
    destruct (body _ _) as [[v|e] w2]; simpl.
    + unfold mbind, M_bind.
      destruct (save_params _ w2) as [[[]|e] w3]; simpl;
        by destruct (del_contexts name w3) as [[[]|e'] w4].
    + by destruct (del_contexts name w2) as [[[]|e'] w4].
  - unfold mbind at 1, M_bind at 1, mkdtemp at 1. fold (tempdir_name w).
    set (wt := set_fs_dirs (λ dirs : gset string, {[tempdir_name w]} ∪ dirs) w).
    unfold try_finally at 1.
    unfold mbind at 1, M_bind at 1.
    rewrite (AcumosContext__init__ok (tempdir_name w) wt gm dm); [|try done..].
    2:{ unfold isdir, wt. simpl. apply bool_decide_eq_true. set_solver. }
    replace (new_context (tempdir_name w) wt) with (new_context (tempdir_name w) w) by done.
    replace (fresh (dom (context_objects wt))) with (session_context w) by done.
    unfold mbind at 1, M_bind at 1, modify at 1.
    unfold mbind at 1, M_bind at 1.
    destruct (body _ _) as [[v|e] w2]; simpl.
    + unfold mbind, M_bind.
      destruct (save_params _ w2) as [[[]|e] w3]; simpl;
        by destruct (del_contexts name _) as [[[]|e'] w4].
    + by destruct (del_contexts name _) as [[[]|e'] w4].
Qed.

Lemma can_open_patch_enter rootdir w :
  can_open rootdir (patch_enter w) = can_open rootdir w.
Proof. reflexivity. Qed.

Lemma session_open_eq {A} rootdir name (body : nat → M A) w :
  _contexts w !! name = None →
  can_open rootdir w = true →
  AcumosContextManager rootdir name body w
  = session_finish rootdir name w (body (session_context w) (session_start rootdir name w)).
Proof.
  intros Hfree Hopen.
  rewrite AcumosContextManager_eq.
  unfold _patch_dill, try_finally, mbind, M_bind, deepcopy_dispatch, modify. simpl.
  fold (patch_enter w).
  rewrite session_block_eq; [|done..].
  unfold session_finish, session_start.
  replace (session_context (patch_enter w)) with (session_context w) by done.
  by destruct (block_finish _ _ _ _) as [r w'].
Qed.

(** ** The session registry and the parameter file *)

Lemma session_rejected {A} rootdir name (body : nat → M A) w :
  is_Some (_contexts w !! name) →
  AcumosContextManager rootdir name body w
  = (Raise (Exc_already_created name), patch_exit w (patch_enter w)).
Proof.
  intros Hreg. rewrite AcumosContextManager_eq, _patch_dill_eq.
  unfold session_block, mbind, M_bind, get_world.
  replace (_contexts (patch_enter w)) with (_contexts w) by done.
  by rewrite bool_decide_eq_true_2.
Qed.

Lemma session_root_missing {A} dir_ name (body : nat → M A) w :
  _contexts w !! name = None →
  isdir dir_ w = false →
  AcumosContextManager (Some dir_) name body w
  = (Raise (KeyError name), patch_exit w (patch_enter w)).
Proof.
  intros Hfree Hdir. rewrite AcumosContextManager_eq, _patch_dill_eq.
  unfold session_block, mbind, M_bind, get_world.
  replace (_contexts (patch_enter w)) with (_contexts w) by done.
  rewrite bool_decide_eq_false_2; [|rewrite Hfree; by intros [? ?]].
  unfold try_finally, _DirManager, mbind, M_bind, get_world.
  replace (isdir dir_ (patch_enter w)) with (isdir dir_ w) by done.
  rewrite Hdir. simpl. unfold del_contexts.
  replace (_contexts (patch_enter w)) with (_contexts w) by done.
  by rewrite Hfree.
Qed.




Lemma session_start_registered rootdir name w :
  _contexts (session_start rootdir name w) !! name = Some (session_context w).
Proof.
  unfold session_start, block_start. simpl. apply lookup_insert_eq.
Qed.

Lemma session_start_context rootdir name w :
  context_at (session_context w) (session_start rootdir name w)
  = new_context (session_root rootdir w) w.
Proof.
  unfold session_start, block_start, context_at. simpl.
  by rewrite lookup_total_insert_eq.
Qed.

Lemma session_start_isdir rootdir name w :
  can_open rootdir w = true →
  isdir (session_root rootdir w) (session_start rootdir name w) = true.
Proof.
  unfold can_open. rewrite !andb_true_iff. intros [[_ Hdir] _].
  unfold session_start, block_start, isdir. apply bool_decide_eq_true.
  destruct rootdir as [d|]; simpl in *.
  - by apply bool_decide_eq_true in Hdir.
  - set_solver.
Qed.



Lemma del_contexts_fs name w :
  fs_files (del_contexts name w).2 = fs_files w
  ∧ fs_dirs (del_contexts name w).2 = fs_dirs w.
Proof. unfold del_contexts. by destruct (_contexts w !! name). Qed.


(** C6.  With an explicit root directory that does not exist and a free
    name, [_DirManager] raises the error that names the directory, but the
    [finally] clause then executes [del _contexts[name]] for a name that was
    never registered: the exception that reaches the caller is
    [KeyError(name)].  No directory is created, no file written and no context
    registered. *)
Theorem missing_rootdir_raises_KeyError :
  ∀ A dir_ name (body : nat → M A) (w : World),
    _contexts w !! name = None →
    isdir dir_ w = false →
    (AcumosContextManager (Some dir_) name body w).1 = Raise (KeyError name)
    ∧ error_class (KeyError name) = OtherError
    ∧ error_names (KeyError name) = None
    ∧ fs_dirs (AcumosContextManager (Some dir_) name body w).2 = fs_dirs w
    ∧ fs_files (AcumosContextManager (Some dir_) name body w).2 = fs_files w
    ∧ _contexts (AcumosContextManager (Some dir_) name body w).2 = _contexts w.
Proof.
  intros A dir_ name body w Hfree Hdir.
  by rewrite session_root_missing.
Qed.

Lemma defaults_importable_spec w :
  defaults_importable w = true →
  ∃ gm dm, sys_modules w !! "gcumos" = Some gm ∧ sys_modules w !! "dill" = Some dm.
Proof.
  unfold defaults_importable. simpl. rewrite !andb_true_iff.
  intros [[gm Hg]%bool_decide_eq_true [[dm Hd]%bool_decide_eq_true _]]. eauto.
Qed.

Lemma AcumosContext__init__loads root_dir w :
  isdir root_dir w = true →
  loadable (path_join root_dir "context.json") w = true →
  defaults_importable w = true →
  ∃ c w', AcumosContext__init__ root_dir w = (Ok c, w')
    ∧ parameters (context_at c w') = loaded_params (path_join root_dir "context.json") w
    ∧ _root_dir (context_at c w') = root_dir.
Proof.
  intros Hdir Hload (gm & dm & Hg & Hd)%defaults_importable_spec.
  eexists _, _. split; [by apply (AcumosContext__init__ok root_dir w gm dm)|].
  unfold context_at. simpl. by rewrite lookup_total_insert_eq.
Qed.

(** C10.  A session-open that fails because the name already has an active
    context raises the "has already been created" error and leaves the
    registry and every context object as they were: the context registered
    under the name is still what [get_context] returns, with the same module
    set and the same parameters. *)
Theorem failed_open_keeps_registry :
  ∀ A rootdir name (body : nat → M A) (w : World) (c : nat),
    _contexts w !! name = Some c →
    (AcumosContextManager rootdir name body w).1 = Raise (Exc_already_created name)
    ∧ _contexts (AcumosContextManager rootdir name body w).2 = _contexts w
    ∧ context_objects (AcumosContextManager rootdir name body w).2 = context_objects w
    ∧ (get_context name (AcumosContextManager rootdir name body w).2).1 = Ok c
    ∧ _modules (context_at c (AcumosContextManager rootdir name body w).2)
      = _modules (context_at c w)
    ∧ parameters (context_at c (AcumosContextManager rootdir name body w).2)
      = parameters (context_at c w).
Proof.
  intros A rootdir name body w c Hreg.
  rewrite session_rejected by (by eexists).
  split_and!; try done.
  unfold get_context. simpl. by rewrite Hreg.
Qed.

(** ** The codecs *)

Lemma save_reduce_eq r w :
  save_reduce r w = (Ok (), set_pickled (fun out => (out ++ [r])%list) w).
Proof. reflexivity. Qed.

Lemma dispatch_set_dict_objects w tbl :
  dispatch (set_dict_objects <[Pickler_dispatch w := tbl]> w) = tbl.
Proof. unfold dispatch. simpl. by rewrite lookup_total_insert_eq. Qed.

Lemma revert_dispatch_save_reduce t f r w :
  dispatch w !! t = Some f →
  ∃ w', _revert_dispatch t (save_reduce r) w = (Ok (), w')
    ∧ pickled w' = (pickled w ++ [r])%list
    ∧ dispatch w' = dispatch w.
Proof.
  intros Hf. unfold _revert_dispatch, mbind, M_bind, dispatch_pop. rewrite Hf.
  unfold try_finally. rewrite save_reduce_eq.
  unfold dispatch_setitem, modify.
  eexists. split; [reflexivity|]. split; [done|].
  unfold dispatch. simpl. rewrite !lookup_total_insert_eq.
  rewrite insert_delete_eq. by apply insert_id.
Qed.

Lemma save_annotation_dispatch obj w :
  dispatch (_save_annotation obj w).2 = dispatch w.
Proof.
  unfold _save_annotation. destruct (origin_in_Dict_List obj).
  - by destruct (__origin__ obj).
  - destruct (dispatch w !! GenericMeta) as [f|] eqn:Hf.
    + destruct (revert_dispatch_save_reduce GenericMeta f
                  (Reduce_load_annotation obj None) w Hf) as (w' & -> & _ & Hd).
      done.
    + unfold _revert_dispatch, mbind, M_bind, dispatch_pop. by rewrite Hf.
Qed.

(** C2.  Encoding a generic container annotation and decoding the result
    gives the annotation back.  For an annotation whose origin is [Dict] or
    [List], [_save_annotation] writes the reduction [(origin, args)] with the
    ordered argument tuple and [_load_annotation] re-applies the origin to the
    arguments; for every other annotation (bare type) it writes [(obj, None)],
    under a temporary removal of its own dispatch entry, and
    [_load_annotation] returns the type unchanged.  [arity_ok] is what
    [typing] guarantees of every subscripted [Dict] and [List]; the dispatch
    entry for [GenericMeta] is the one through which the codec was called. *)
Theorem annotation_round_trip :
  (∀ (obj : PyType) (w : World),
      arity_ok obj = true →
      is_Some (dispatch w !! GenericMeta) →
      ∃ t args w',
        _save_annotation obj w = (Ok (), w')
        ∧ pickled w' = (pickled w ++ [Reduce_load_annotation t args])%list
        ∧ _load_annotation t args = Ok obj
        ∧ (origin_in_Dict_List obj = true →
             __origin__ obj = Some t ∧ args = __args__ obj)
        ∧ (origin_in_Dict_List obj = false → t = obj ∧ args = None))
  ∧ (∀ t : PyType, _load_annotation t None = Ok t)
  ∧ (∀ (obj : PyObj) (t : PyType) (w : World),
      obj_kind obj = KAnnotation t →
      dispatch w !! GenericMeta = Some H_save_annotation →
      stock_save obj w = _save_annotation t w).
Proof.
  split_and!.
  - intros obj w Harity [f Hf]. unfold _save_annotation.
    destruct (origin_in_Dict_List obj) eqn:Ho.
    + destruct obj as [| | |origin args]; try done.
      destruct origin; try done; simpl in *.
      * apply bool_decide_eq_true in Harity.
        destruct args as [|a0 [|a1 [|]]]; try done.
        eexists typing_Dict, (Some [a0; a1]), _.
        split; [reflexivity|]. by split_and!.
      * apply bool_decide_eq_true in Harity.
        destruct args as [|a0 [|]]; try done.
        eexists typing_List, (Some [a0]), _.
        split; [reflexivity|]. by split_and!.
    + destruct (revert_dispatch_save_reduce GenericMeta f
                  (Reduce_load_annotation obj None) w Hf) as (w' & Hrun & Hout & _).
      exists obj, None, w'. split_and!; try done.
      by destruct obj as [| | |[] ?].
  - by intros [| | |].
  - intros obj t w Hk Hd. unfold stock_save, mbind, M_bind, get_world, type_of.
    by rewrite Hk, Hd.
Qed.

Lemma items_comprehension (field_types : list (string * PyType)) :
  map (fun '(k, v) => (k, v)) (items field_types) = field_types.
Proof.
  unfold items. induction field_types as [|[k v] l IH]; simpl; [done|].
  by rewrite IH.
Qed.

(** C3.  For a record type other than [Empty], [wrapped_save] writes the
    reduction (type name, ordered field-name to field-type mapping), and
    [_load_namedtuple] builds from it a record type with the same name and the
    same fields in the same order, which is a new class object, distinct from
    the original.  For [Empty] the hook hands the object to the save function
    it wrapped. *)
Theorem namedtuple_round_trip :
  (∀ (pickler_save : SaveFn) (obj : PyObj) (nt : NamedTuple) (w w1 : World),
      obj_kind obj = KNamedTuple nt →
      nt_id nt ≠ nt_id Empty →
      _catch_object obj w = (Ok (), w1) →
      ∃ w', wrapped_save pickler_save obj w = (Ok (), w')
        ∧ pickled w'
          = (pickled w1 ++ [Reduce_load_namedtuple (nt_name nt) (nt_field_types nt)])%list)
  ∧ (∀ (nt : NamedTuple) (wl : World),
      nt_id nt < next_class_id wl →
      ∃ nt' wl',
        _load_namedtuple (nt_name nt) (namedtuple_field_types nt) wl = (Ok nt', wl')
        ∧ nt_name nt' = nt_name nt
        ∧ map fst (nt_field_types nt') = map fst (nt_field_types nt)
        ∧ nt_field_types nt' = nt_field_types nt
        ∧ nt_id nt' ≠ nt_id nt)
  ∧ (∀ (pickler_save : SaveFn) (obj : PyObj) (w w1 : World),
      obj_kind obj = KNamedTuple Empty →
      _catch_object obj w = (Ok (), w1) →
      wrapped_save pickler_save obj w = apply_save pickler_save obj w1).
Proof.
  split_and!.
  - intros pickler_save obj nt w w1 Hk Hne Hhook.
    unfold wrapped_save. simpl. unfold mbind, M_bind. rewrite Hhook.
    unfold _is_namedtuple, is_Empty. rewrite Hk. simpl.
    rewrite bool_decide_eq_false_2 by done. simpl.
    eexists. split; [reflexivity|]. done.
  - intros nt wl Hlt. unfold _load_namedtuple. rewrite items_comprehension.
    eexists _, _. split; [reflexivity|]. simpl. split_and!; try done.
    unfold namedtuple_field_types. lia.
  - intros pickler_save obj w w1 Hk Hhook.
    unfold wrapped_save. simpl. unfold mbind, M_bind. rewrite Hhook.
    unfold _is_namedtuple, is_Empty. rewrite Hk. simpl. done.
Qed.

(** ** Module discovery *)

Lemma partition_dot_no_dot (s : string) : has_dot (partition_dot s) = false.
Proof.
  induction s as [|c s IH]; simpl; [done|].
  destruct (Ascii.eqb c ".") eqn:E; simpl; [done|]. by rewrite E.
Qed.

Lemma keeps_bind {A B} (m : M A) (f : A → M B) :
  keeps_contexts m → (∀ a, keeps_contexts (f a)) → keeps_contexts (m ≫= f).
Proof.
  intros Hm Hf w. unfold mbind, M_bind.
  destruct (Hm w) as (H1 & H2 & H3).
  destruct (m w) as [[a|e] w1]; simpl in *; [|done].
  destruct (Hf a w1) as (H4 & H5 & H6). split_and!; congruence.
Qed.

Lemma keeps_for_each {A} (f : A → M unit) (l : list A) :
  (∀ a, keeps_contexts (f a)) → keeps_contexts (for_each f l).
Proof.
  intros Hf. induction l as [|a l IH]; simpl; [done|].
  apply keeps_bind; [apply Hf | intros _; apply IH].
Qed.

Lemma keeps_lazy_registration (obj_type : string) (paths : list string) :
  keeps_contexts
    (w ← get_world;
     if bool_decide (is_Some (dispatch w !! obj_type)) then mret ()
     else
       for_each (fun path =>
         w ← get_world;
         match _CUSTOM_DISPATCH w !! path with
         | Some f => dispatch_setitem obj_type f
         | None => mret ()
         end) paths).
Proof.
  apply keeps_bind; [done|]. intros w. destruct (bool_decide _); [done|].
  apply keeps_for_each. intros path. apply keeps_bind; [done|]. intros w'.
  by destruct (_CUSTOM_DISPATCH w' !! path).
Qed.

Lemma get_base_module_spec (obj : PyObj) (w w' : World) (m : Module) :
  _get_base_module obj w = (Ok (Some m), w') →
  w' = w ∧ ∃ module, obj_module obj = Some module
       ∧ sys_modules w !! partition_dot (__name__ module) = Some m.
Proof.
  unfold _get_base_module. destruct (obj_module obj) as [module|]; [|done].
  destruct (sys_modules w !! _) eqn:E; [|done].
  intros [= <- <-]. eauto.
Qed.

Lemma catch_object_modules (obj : PyObj) (w w' : World) :
  _catch_object obj w = (Ok (), w') →
  ∀ self m, m ∈ _modules (context_at self w') →
    m ∈ _modules (context_at self w)
    ∨ ∃ module, obj_module obj = Some module
        ∧ sys_modules w !! partition_dot (__name__ module) = Some m.
Proof.
  unfold _catch_object. intros Hrun self m.
  unfold mbind at 1, M_bind at 1 in Hrun.
  match type of Hrun with context [(?reg ≫= _) w] =>
    pose proof (keeps_lazy_registration
                  (if obj_isclass obj then obj_ident obj else type_of obj)
                  (_get_mro_paths obj) w) as (Hc & Hr & Hs) end.
  match type of Hrun with context [match ?x with _ => _ end] =>
    destruct x as [[[]|e] w1] eqn:Hreg end; [|done].
  simpl in Hc, Hr, Hs.
  unfold mbind at 1, M_bind at 1 in Hrun.
  destruct (_get_base_module obj w1) as [[[bm|]|e] w2] eqn:Hbase; [| |done].
  - apply get_base_module_spec in Hbase as (-> & module & Hmod & Hsys).
    destruct (bool_decide _).
    + injection Hrun as <-. unfold context_at. rewrite Hc. by left.
    + unfold mbind, M_bind, get_context in Hrun.
      destruct (_contexts w1 !! _DEFAULT) as [ctx|]; [|done].
      unfold add_module, mbind, M_bind, mret, M_ret, update_context, modify in Hrun.
      injection Hrun as <-. unfold context_at. simpl.
      destruct (decide (self = ctx)) as [->|Hne].
      * rewrite lookup_total_insert_eq. simpl.
        rewrite elem_of_union, elem_of_singleton. intros [->|Hin].
        -- right. exists module. by rewrite <- Hs.
        -- left. by rewrite <- Hc.
      * rewrite lookup_total_insert_ne by done. rewrite Hc. by left.
  - unfold _get_base_module in Hbase.
    destruct (obj_module obj); [by destruct (sys_modules w1 !! _)|].
    injection Hbase as <-. injection Hrun as <-.
    unfold context_at. rewrite Hc. by left.
Qed.

Lemma elem_of_packages (c : AcumosContext) (m : Module) :
  m ∈ packages c ↔ truthy (__package__ m) = true ∧ m ∈ _modules c.
Proof.
  unfold packages.
  apply (elem_of_filter (fun mod_ => truthy (__package__ mod_) = true)).
Qed.

Lemma elem_of_scripts (c : AcumosContext) (m : Module) :
  m ∈ scripts c
  ↔ __name__ m ≠ "__main__" ∧ truthy (__package__ m) = false ∧ m ∈ _modules c.
Proof.
  unfold scripts.
  rewrite (elem_of_filter (fun script => __name__ script ≠ "__main__")).
  by rewrite (elem_of_filter (fun mod_ => truthy (__package__ mod_) = false)).
Qed.

Lemma elem_of_package_names (c : AcumosContext) (name : string) :
  name ∈ package_names c ↔ ∃ m, name = __name__ m ∧ m ∈ packages c.
Proof. unfold package_names. apply elem_of_map. Qed.

Lemma elem_of_script_names (c : AcumosContext) (name : string) :
  name ∈ script_names c ↔ ∃ m, name = __name__ m ∧ m ∈ scripts c.
Proof. unfold script_names. apply elem_of_map. Qed.

(** ** The dispatch table outside a session *)

Lemma stock_save_dispatch (obj : PyObj) (w : World) :
  dispatch (stock_save obj w).2 = dispatch w.
Proof.
  unfold stock_save, mbind, M_bind, get_world.
  destruct (dispatch w !! type_of obj) as [[| |]|]; try done.
  destruct (obj_kind obj); try done. apply save_annotation_dispatch.
Qed.

(** C9, as stated, fails: importing the module registers the annotation codec
    in the process-wide dispatch table while no session is active. *)
Lemma import_registers_outside_session :
  session_active fresh_process = false
  ∧ dispatch fresh_process !! GenericMeta = None
  ∧ dispatch (module_init fresh_process).2 !! GenericMeta = Some H_save_annotation.
Proof. split_and!; vm_compute; reflexivity. Qed.

(** ** Instances of the theorems on the sample process *)

Lemma annotation_round_trip_witness :
  arity_ok Dict_str_int = true
  ∧ is_Some (dispatch imported_process !! GenericMeta)
  ∧ ∃ t args w',
      _save_annotation Dict_str_int imported_process = (Ok (), w')
      ∧ pickled w' = (pickled imported_process ++ [Reduce_load_annotation t args])%list
      ∧ _load_annotation t args = Ok Dict_str_int.
Proof.
  assert (arity_ok Dict_str_int = true) as Ha by reflexivity.
  assert (is_Some (dispatch imported_process !! GenericMeta)) as Hd.
  { eexists. vm_compute. reflexivity. }
  split; [exact Ha|]. split; [exact Hd|].
  destruct (proj1 annotation_round_trip Dict_str_int imported_process Ha Hd)
    as (t & args & w' & H1 & H2 & H3 & _).
  exists t, args, w'. by split_and!.
Defined.

Lemma namedtuple_round_trip_witness :
  nt_id Point < next_class_id imported_process
  ∧ ∃ nt' wl',
      _load_namedtuple (nt_name Point) (namedtuple_field_types Point) imported_process
      = (Ok nt', wl')
      ∧ nt_name nt' = nt_name Point
      ∧ map fst (nt_field_types nt') = map fst (nt_field_types Point)
      ∧ nt_id nt' ≠ nt_id Point.
Proof.
  assert (nt_id Point < next_class_id imported_process) as Hlt.
  { vm_compute. lia. }
  split; [exact Hlt|].
  destruct (proj1 (proj2 namedtuple_round_trip) Point imported_process Hlt)
    as (nt' & wl' & H1 & H2 & H3 & _ & H5).
  exists nt', wl'. by split_and!.
Defined.


Lemma missing_rootdir_raises_KeyError_witness :
  _contexts imported_process !! "default" = None
  ∧ isdir "/nonexistent" imported_process = false
  ∧ (AcumosContextManager (Some "/nonexistent") "default"
       (fun c => mret c) imported_process).1 = Raise (KeyError "default").
Proof.
  assert (_contexts imported_process !! "default" = None) as Hfree.
  { vm_compute. reflexivity. }
  assert (isdir "/nonexistent" imported_process = false) as Hdir.
  { vm_compute. reflexivity. }
  split; [exact Hfree|]. split; [exact Hdir|].
  exact (proj1 (missing_rootdir_raises_KeyError nat "/nonexistent" "default"
                  (fun c => mret c) imported_process Hfree Hdir)).
Defined.

Lemma failed_open_keeps_registry_witness :
  _contexts in_session !! "default" = Some 0
  ∧ (AcumosContextManager (Some "/work") "default" (fun c => mret c) in_session).1
    = Raise (Exc_already_created "default")
  ∧ _contexts (AcumosContextManager (Some "/work") "default" (fun c => mret c) in_session).2
    = _contexts in_session.
Proof.
  assert (_contexts in_session !! "default" = Some 0) as Hreg by (vm_compute; reflexivity).
  split; [exact Hreg|].
  pose proof (failed_open_keeps_registry nat (Some "/work") "default"
                (fun c => mret c) in_session 0 Hreg) as (H1 & H2 & _).
  split; [exact H1 | exact H2].
Defined.

(** The scenario of the specification: inside a session, an object defined in
    the submodule [A.b] and a function of the top-level script [S] are saved.
    The package names contain [A] and not [A.b], the script names contain
    [S], and neither set contains an entry of the other. *)
Example discovered_modules :
  ∃ w', AcumosContextManager None "default"
          (fun c => Pickler_save_call Point_class ;;
                    Pickler_save_call script_function ;;
                    w ← get_world;
                    mret (elements (package_names (context_at c w)),
                          elements (script_names (context_at c w))))
          imported_process
        = (Ok (["gcumos"; "A"; "dill"], ["S"]), w').
Proof. eexists. vm_compute. reflexivity. Qed.

(** Outside a session the annotation codec is still the registered function
    for annotations: a bare [List] is written as [(List, None)]. *)
Example bare_annotation_pickled :
  pickled (Pickler_save_call List_annotation imported_process).2
  = [Reduce_load_annotation typing_List None].
Proof. vm_compute. reflexivity. Qed.

(** * Further properties of the module *)

(** ** [_revert_dispatch] *)

(** X1.  [_revert_dispatch(t)] on a type without an entry raises [KeyError]
    before the block runs and changes nothing.  With an entry [f], the block
    starts on the table without [t], its outcome is the outcome of the whole
    statement, and on exit [f] is written back into the table of that moment:
    the table is the one the block left, with [t] mapped to [f] again; if the
    block left the entries as it found them, the table is as before. *)
Theorem revert_dispatch_scoped :
  (∀ A (t : string) (body : M A) (w : World),
      dispatch w !! t = None →
      _revert_dispatch t body w = (Raise (KeyError t), w))
  ∧ (∀ A (t : string) (f : Handler) (body : M A) (w : World),
      dispatch w !! t = Some f →
      ∃ w0,
        dispatch w0 = delete t (dispatch w)
        ∧ (_revert_dispatch t body w).1 = (body w0).1
        ∧ dispatch (_revert_dispatch t body w).2 = <[t := f]> (dispatch (body w0).2)
        ∧ (dispatch (body w0).2 = dispatch w0 →
           dispatch (_revert_dispatch t body w).2 = dispatch w)).
Proof.
  split.
  - intros A t body w Hnone.
    unfold _revert_dispatch, mbind, M_bind, dispatch_pop. by rewrite Hnone.
  - intros A t f body w Hf.
    exists (set_dict_objects <[Pickler_dispatch w := delete t (dispatch w)]> w).
    unfold _revert_dispatch, mbind, M_bind, dispatch_pop. rewrite Hf.
    unfold try_finally.
    set (w0 := set_dict_objects _ w).
    assert (dispatch w0 = delete t (dispatch w)) as Hw0.
    { unfold dispatch, w0. simpl. by rewrite lookup_total_insert_eq. }
    destruct (body w0) as [r w1]. simpl.
    assert (dispatch (set_dict_objects <[Pickler_dispatch w1 := <[t := f]> (dispatch w1)]> w1)
            = <[t := f]> (dispatch w1)) as Hfin.
    { unfold dispatch. simpl. by rewrite lookup_total_insert_eq. }
    split_and!; [done | done | exact Hfin |].
    intros Hsame. rewrite Hfin, Hsame, Hw0, insert_delete_eq. by apply insert_id.
Qed.

Lemma revert_dispatch_scoped_witness :
  dispatch imported_process !! GenericMeta = Some H_save_annotation
  ∧ ∃ w0, dispatch w0 = delete GenericMeta (dispatch imported_process)
      ∧ (_revert_dispatch GenericMeta (raise (A:=unit) (UserError "boom")) imported_process).1
        = (raise (A:=unit) (UserError "boom") w0).1.
Proof.
  assert (dispatch imported_process !! GenericMeta = Some H_save_annotation) as Hf
    by (vm_compute; reflexivity).
  split; [exact Hf|].
  destruct (proj2 revert_dispatch_scoped unit GenericMeta H_save_annotation
              (raise (UserError "boom")) imported_process Hf) as (w0 & H0 & H1 & _).
  exists w0. by split.
Defined.

(** ** The pre-save hook *)

Lemma last_cons_Some {A} (x : A) (l : list A) :
  list.last (x :: l) = Some (default x (list.last l)).
Proof.
  revert x. induction l as [|y l IH]; intros x; [done|].
  change (list.last (y :: l) = Some (default x (list.last (y :: l)))).
  by rewrite IH.
Qed.

Lemma bind_eq {A B} (m : M A) (f : A → M B) (w : World) :
  (m ≫= f) w
  = match m w with
    | (Ok a, w') => f a w'
    | (Raise e, w') => (Raise e, w')
    end.
Proof. reflexivity. Qed.

Lemma lazy_registration_loop (obj_type : string) (paths : list string) (w : World) :
  let loop := for_each (fun path =>
                w ← get_world;
                match _CUSTOM_DISPATCH w !! path with
                | Some f => dispatch_setitem obj_type f
                | None => mret ()
                end) paths in
  (loop w).1 = Ok ()
  ∧ _CUSTOM_DISPATCH (loop w).2 = _CUSTOM_DISPATCH w
  ∧ dispatch (loop w).2
    = match list.last (omap (fun path => _CUSTOM_DISPATCH w !! path) paths) with
      | Some f => <[obj_type := f]> (dispatch w)
      | None => dispatch w
      end.
Proof.
  set (step := fun path : string =>
                w ← get_world;
                match _CUSTOM_DISPATCH w !! path with
                | Some f => dispatch_setitem obj_type f
                | None => mret ()
                end).
  revert w. induction paths as [|path paths IH]; intros w; [done|].
  cbn [for_each omap list_omap]. rewrite bind_eq.
  destruct (_CUSTOM_DISPATCH w !! path) as [f|] eqn:Hp.
  - set (w1 := set_dict_objects <[Pickler_dispatch w := <[obj_type := f]> (dispatch w)]> w).
    assert (step path w = (Ok (), w1)) as ->.
    { unfold step. rewrite bind_eq. unfold get_world. by rewrite Hp. }
    destruct (IH w1) as (Hr & Hc & Hd).
    assert (_CUSTOM_DISPATCH w1 = _CUSTOM_DISPATCH w) as Hc1 by done.
    assert (dispatch w1 = <[obj_type := f]> (dispatch w)) as Hd1.
    { unfold dispatch, w1. simpl. by rewrite lookup_total_insert_eq. }
    split_and!; [done | by rewrite Hc | ].
    rewrite Hd, Hc1, Hd1, last_cons_Some.
    destruct (list.last _) as [g|]; simpl; [by rewrite insert_insert_eq | done].
  - assert (step path w = (Ok (), w)) as ->.
    { unfold step. rewrite bind_eq. unfold get_world. by rewrite Hp. }
    apply IH.
Qed.

Lemma hook_second_half_tables (obj : PyObj) (w : World) :
  let rest := (base_module ← _get_base_module obj;
               match base_module with
               | Some base_module =>
                   if bool_decide (__name__ base_module ∈ _BLACKLIST) then mret ()
                   else
                     context ← get_context _DEFAULT;
                     add_module context (ArgModule base_module)
               | None => mret ()
               end) in
  dict_objects (rest w).2 = dict_objects w
  ∧ Pickler_dispatch (rest w).2 = Pickler_dispatch w
  ∧ _CUSTOM_DISPATCH (rest w).2 = _CUSTOM_DISPATCH w.
Proof.
  simpl. unfold mbind, M_bind, _get_base_module.
  destruct (obj_module obj) as [module|]; [|done].
  destruct (sys_modules w !! _) as [bm|]; [|done].
  destruct (bool_decide _); [done|].
  unfold get_context. by destruct (_contexts w !! _DEFAULT).
Qed.

(** X2.  The lazy registration of [_catch_object] never replaces an entry:
    when the object's type is in the dispatch table, the table is left alone.
    When it is not, the type is registered with the serializer of the last
    entry of its MRO whose import path is in [_CUSTOM_DISPATCH] (the loop has
    no [break], so a base class overrides a subclass), and with nothing when
    no path matches.  No other entry changes. *)
Theorem lazy_registration_last_match_wins :
  ∀ (obj : PyObj) (w : World),
    let obj_type := if obj_isclass obj then obj_ident obj else type_of obj in
    (is_Some (dispatch w !! obj_type) →
       dispatch (_catch_object obj w).2 = dispatch w)
    ∧ (dispatch w !! obj_type = None →
       dispatch (_catch_object obj w).2
       = match list.last (omap (fun path => _CUSTOM_DISPATCH w !! path)
                               (_get_mro_paths obj)) with
         | Some f => <[obj_type := f]> (dispatch w)
         | None => dispatch w
         end).
Proof.
  intros obj w obj_type. unfold _catch_object. fold obj_type.
  rewrite bind_eq.
  match goal with |- context [(get_world ≫= ?k) w] =>
    change ((get_world ≫= k) w) with (k w w) end.
  cbn beta.
  split.
  - intros Hin. rewrite bool_decide_eq_true_2 by done.
    unfold mret at 1, M_ret at 1.
    destruct (hook_second_half_tables obj w) as (Hd & Hp & _). simpl in Hd, Hp.
    unfold dispatch. by rewrite Hd, Hp.
  - intros Hnone.
    rewrite bool_decide_eq_false_2 by (rewrite Hnone; by intros [? ?]).
    destruct (lazy_registration_loop obj_type (_get_mro_paths obj) w) as (Hr & _ & Hl).
    simpl in Hr, Hl.
    destruct (for_each _ _ w) as [[[]|e] w1]; [|done]. simpl in Hl.
    destruct (hook_second_half_tables obj w1) as (Hd & Hp & _). simpl in Hd, Hp.
    rewrite <- Hl. unfold dispatch. by rewrite Hd, Hp.
Qed.

Lemma lazy_registration_last_match_wins_witness :
  dispatch custom_process !! (if obj_isclass keras_model then obj_ident keras_model
                              else type_of keras_model) = None
  ∧ dispatch (_catch_object keras_model custom_process).2 !! "A.b.MyModel"
    = Some (H_custom "keras").
Proof.
  assert (dispatch custom_process !! (if obj_isclass keras_model then obj_ident keras_model
                                      else type_of keras_model) = None) as Hnone
    by (vm_compute; reflexivity).
  split; [exact Hnone|].
  rewrite (proj2 (lazy_registration_last_match_wins keras_model custom_process) Hnone).
  vm_compute. reflexivity.
Defined.

(** The first half of the hook leaves everything but the dispatch table. *)
Lemma hook_first_half_frame (obj_type : string) (paths : list string) (w : World) :
  let reg := (w ← get_world;
              if bool_decide (is_Some (dispatch w !! obj_type)) then mret ()
              else
                for_each (fun path =>
                  w ← get_world;
                  match _CUSTOM_DISPATCH w !! path with
                  | Some f => dispatch_setitem obj_type f
                  | None => mret ()
                  end) paths) in
  (reg w).1 = Ok ()
  ∧ context_objects (reg w).2 = context_objects w
  ∧ _contexts (reg w).2 = _contexts w
  ∧ sys_modules (reg w).2 = sys_modules w.
Proof.
  intros reg.
  destruct (keeps_lazy_registration obj_type paths w) as (H1 & H2 & H3).
  split; [|done].
  unfold reg.
  match goal with |- context [(get_world ≫= ?k) w] =>
    change ((get_world ≫= k) w) with (k w w) end.
  cbn beta. destruct (bool_decide _); [done|].
  apply lazy_registration_loop.
Qed.

(** The hook is its second half, run in a state that differs from the
    original one in dispatch tables only. *)
Lemma hook_split (obj : PyObj) (w : World) :
  ∃ w1, context_objects w1 = context_objects w ∧ _contexts w1 = _contexts w
        ∧ sys_modules w1 = sys_modules w
        ∧ _catch_object obj w
          = (base_module ← _get_base_module obj;
             match base_module with
             | Some base_module =>
                 if bool_decide (__name__ base_module ∈ _BLACKLIST) then mret ()
                 else
                   context ← get_context _DEFAULT;
                   add_module context (ArgModule base_module)
             | None => mret ()
             end) w1.
Proof.
  unfold _catch_object. rewrite bind_eq.
  destruct (hook_first_half_frame
              (if obj_isclass obj then obj_ident obj else type_of obj)
              (_get_mro_paths obj) w) as (Hr & Hc & Hn & Hs).
  simpl in Hr, Hc, Hn, Hs.
  match goal with |- context [match ?x with _ => _ end] =>
    destruct x as [[[]|e] w1] end; [|done].
  exists w1. by split_and!.
Qed.

Lemma hook_without_default (obj : PyObj) (module base_module : Module) (w : World) :
  obj_module obj = Some module →
  sys_modules w !! partition_dot (__name__ module) = Some base_module →
  __name__ base_module ∉ _BLACKLIST →
  _contexts w !! _DEFAULT = None →
  (_catch_object obj w).1 = Raise (Exc_not_created _DEFAULT)
  ∧ context_objects (_catch_object obj w).2 = context_objects w
  ∧ _contexts (_catch_object obj w).2 = _contexts w.
Proof.
  intros Hm Hsys Hbl Hnone.
  destruct (hook_split obj w) as (w1 & Hc & Hn & Hs & ->).
  rewrite bind_eq. unfold _get_base_module. rewrite Hm, Hs, Hsys.
  rewrite bool_decide_eq_false_2 by done.
  rewrite bind_eq. unfold get_context. by rewrite Hn, Hnone.
Qed.

(** X3.  What the hook records, by the module of the object.  An object
    without a module, or whose top-level module is [builtins], records
    nothing and needs no context.  When the top-level module is not loaded
    in [sys.modules] the hook raises [KeyError].  Otherwise the module is
    added to the context registered under the name [default], whatever the
    name of the session that is running, and nothing else changes in any
    context; without a context named [default] the hook raises the "has not
    been created" error. *)
Theorem hook_records_in_default_context :
  (∀ (obj : PyObj) (w : World),
      obj_module obj = None →
      (_catch_object obj w).1 = Ok ()
      ∧ context_objects (_catch_object obj w).2 = context_objects w)
  ∧ (∀ (obj : PyObj) (module : Module) (w : World),
      obj_module obj = Some module →
      sys_modules w !! partition_dot (__name__ module) = None →
      (_catch_object obj w).1 = Raise (KeyError (partition_dot (__name__ module)))
      ∧ context_objects (_catch_object obj w).2 = context_objects w)
  ∧ (∀ (obj : PyObj) (module base_module : Module) (w : World),
      obj_module obj = Some module →
      sys_modules w !! partition_dot (__name__ module) = Some base_module →
      __name__ base_module ∈ _BLACKLIST →
      (_catch_object obj w).1 = Ok ()
      ∧ context_objects (_catch_object obj w).2 = context_objects w)
  ∧ (∀ (obj : PyObj) (module base_module : Module) (w : World),
      obj_module obj = Some module →
      sys_modules w !! partition_dot (__name__ module) = Some base_module →
      __name__ base_module ∉ _BLACKLIST →
      _contexts w !! _DEFAULT = None →
      (_catch_object obj w).1 = Raise (Exc_not_created _DEFAULT)
      ∧ context_objects (_catch_object obj w).2 = context_objects w)
  ∧ (∀ (obj : PyObj) (module base_module : Module) (w : World) (c : nat),
      obj_module obj = Some module →
      sys_modules w !! partition_dot (__name__ module) = Some base_module →
      __name__ base_module ∉ _BLACKLIST →
      _contexts w !! _DEFAULT = Some c →
      (_catch_object obj w).1 = Ok ()
      ∧ _modules (context_at c (_catch_object obj w).2)
        = {[base_module]} ∪ _modules (context_at c w)
      ∧ parameters (context_at c (_catch_object obj w).2) = parameters (context_at c w)
      ∧ ∀ c', c' ≠ c →
          context_objects (_catch_object obj w).2 !! c' = context_objects w !! c').
Proof.
  pose proof hook_split as Hsplit.
  split_and!.
  - intros obj w Hm. destruct (Hsplit obj w) as (w1 & Hc & Hn & Hs & ->).
    rewrite bind_eq. unfold _get_base_module. rewrite Hm. done.
  - intros obj module w Hm Hsys. destruct (Hsplit obj w) as (w1 & Hc & Hn & Hs & ->).
    rewrite bind_eq. unfold _get_base_module. rewrite Hm, Hs, Hsys. done.
  - intros obj module bm w Hm Hsys Hbl.
    destruct (Hsplit obj w) as (w1 & Hc & Hn & Hs & ->).
    rewrite bind_eq. unfold _get_base_module. rewrite Hm, Hs, Hsys.
    by rewrite bool_decide_eq_true_2.
  - intros obj module bm w Hm Hsys Hbl Hnone.
    destruct (hook_without_default obj module bm w Hm Hsys Hbl Hnone) as (H1 & H2 & _).
    done.
  - intros obj module bm w c Hm Hsys Hbl Hreg.
    destruct (Hsplit obj w) as (w1 & Hc & Hn & Hs & ->).
    rewrite bind_eq. unfold _get_base_module. rewrite Hm, Hs, Hsys.
    rewrite bool_decide_eq_false_2 by done.
    rewrite bind_eq. unfold get_context. rewrite Hn, Hreg.
    unfold add_module. rewrite bind_eq.
    unfold mret, M_ret, update_context, modify, context_at. simpl.
    rewrite lookup_total_insert_eq, Hc. simpl.
    split_and!; try done.
    intros c' Hne. by rewrite lookup_insert_ne.
Qed.

Lemma hook_records_in_default_context_witness :
  obj_module keras_model = Some mod_A_b
  ∧ sys_modules in_session !! partition_dot (__name__ mod_A_b) = Some mod_A
  ∧ (__name__ mod_A ∉ _BLACKLIST)
  ∧ _contexts in_session !! _DEFAULT = Some 0
  ∧ _modules (context_at 0 (_catch_object keras_model in_session).2)
    = {[mod_A]} ∪ _modules (context_at 0 in_session).
Proof.
  assert (obj_module keras_model = Some mod_A_b) as H1 by reflexivity.
  assert (sys_modules in_session !! partition_dot (__name__ mod_A_b) = Some mod_A) as H2
    by (vm_compute; reflexivity).
  assert (__name__ mod_A ∉ _BLACKLIST) as H3.
  { unfold _BLACKLIST. simpl. set_solver. }
  assert (_contexts in_session !! _DEFAULT = Some 0) as H4 by (vm_compute; reflexivity).
  split_and!; [exact H1 | exact H2 | exact H3 | exact H4 |].
  exact (proj1 (proj2 (proj2 (proj2 (proj2 (proj2 hook_records_in_default_context)))
                  keras_model mod_A_b mod_A in_session 0 H1 H2 H3 H4))).
Defined.

(** ** [add_module] *)

(** X4.  [add_module] with something that is neither a name nor a module
    raises and changes nothing.  With a module, or with the name of a module
    that is loaded (an entry of [sys.modules], which the import returns as it
    is), it adds exactly that module to the module set of the context: the
    other attributes of the context, the other contexts and the rest of the
    state stay as they are. *)
Theorem add_module_effect :
  (∀ (self : nat) (w : World),
      add_module self ArgOther w = (Raise Exc_module_bad_type, w))
  ∧ (∀ (self : nat) (arg : ModuleArg) (m : Module) (w : World),
      (arg = ArgModule m ∨ ∃ name, arg = ArgStr name ∧ sys_modules w !! name = Some m) →
      add_module self arg w
      = (Ok (),
         set_context_objects
           <[self := {| _modules := {[m]} ∪ _modules (context_at self w);
                        _root_dir := _root_dir (context_at self w);
                        _params_path := _params_path (context_at self w);
                        parameters := parameters (context_at self w) |}]> w)).
Proof.
  split.
  - done.
  - intros self arg m w [->|(name & -> & Hm)]; [done|].
    unfold add_module. rewrite bind_eq. unfold import_module. by rewrite Hm.
Qed.

Lemma add_module_effect_witness :
  sys_modules in_session !! "A" = Some mod_A
  ∧ (add_module 0 (ArgStr "A") in_session).1 = Ok ()
  ∧ _modules (context_at 0 (add_module 0 (ArgStr "A") in_session).2)
    = {[mod_A]} ∪ _modules (context_at 0 in_session).
Proof.
  assert (sys_modules in_session !! "A" = Some mod_A) as H by (vm_compute; reflexivity).
  split; [exact H|].
  rewrite (proj2 add_module_effect 0 (ArgStr "A") mod_A in_session
             (or_intror (ex_intro _ "A" (conj eq_refl H)))).
  split; [reflexivity|].
  unfold context_at. simpl. by rewrite lookup_total_insert_eq.
Defined.

Lemma add_module_ok (self : nat) (m : Module) (w : World) :
  add_module self (ArgModule m) w
  = (Ok (),
     set_context_objects
       <[self := {| _modules := {[m]} ∪ _modules (context_at self w);
                    _root_dir := _root_dir (context_at self w);
                    _params_path := _params_path (context_at self w);
                    parameters := parameters (context_at self w) |}]> w).
Proof. reflexivity. Qed.

Lemma set_context_objects_ext (f g : gmap nat AcumosContext → gmap nat AcumosContext)
    (w : World) :
  f (context_objects w) = g (context_objects w) →
  set_context_objects f w = set_context_objects g w.
Proof. intros H. unfold set_context_objects. by rewrite H. Qed.

Lemma set_context_objects_twice (f g : gmap nat AcumosContext → gmap nat AcumosContext)
    (w : World) :
  set_context_objects f (set_context_objects g w) = set_context_objects (f ∘ g) w.
Proof. reflexivity. Qed.

(** X5.  Adding a module twice is the same as adding it once, and the order
    in which two modules are added to a context does not matter: the module
    set is a set. *)
Theorem add_module_idempotent_commutative :
  (∀ (self : nat) (m : Module) (w : World),
      (add_module self (ArgModule m) ;; add_module self (ArgModule m)) w
      = add_module self (ArgModule m) w)
  ∧ (∀ (self : nat) (m1 m2 : Module) (w : World),
      (add_module self (ArgModule m1) ;; add_module self (ArgModule m2)) w
      = (add_module self (ArgModule m2) ;; add_module self (ArgModule m1)) w).
Proof.
  split.
  - intros self m w. rewrite bind_eq, add_module_ok. cbn beta iota.
    rewrite ?add_module_ok. f_equal.
    rewrite set_context_objects_twice. apply set_context_objects_ext.
    unfold context_at. simpl. rewrite lookup_total_insert_eq, insert_insert_eq. simpl.
    do 2 f_equal. by rewrite (assoc_L (∪)), union_idemp_L.
  - intros self m1 m2 w. rewrite !bind_eq, !add_module_ok. cbn beta iota.
    rewrite ?add_module_ok. f_equal.
    rewrite !set_context_objects_twice. apply set_context_objects_ext.
    unfold context_at. simpl. rewrite !lookup_total_insert_eq, !insert_insert_eq. simpl.
    do 2 f_equal. by rewrite !(assoc_L (∪)), (comm_L (∪) {[m2]}).
Qed.

(** ** Sessions and the default context *)

(** X6.  The hook looks its context up under the name [default].  In a
    session opened under another name, with no session named [default]
    active, saving an object of a module other than [builtins] therefore
    fails: the "has not been created" error for [default] leaves the [with]
    statement. *)
Theorem save_in_named_session_needs_default :
  ∀ (rootdir : option string) (name : string) (obj : PyObj)
    (module base_module : Module) (w : World),
    name ≠ _DEFAULT →
    _contexts w !! name = None →
    _contexts w !! _DEFAULT = None →
    can_open rootdir w = true →
    obj_module obj = Some module →
    sys_modules w !! partition_dot (__name__ module) = Some base_module →
    __name__ base_module ∉ _BLACKLIST →
    (AcumosContextManager rootdir name (fun _ => Pickler_save_call obj) w).1
    = Raise (Exc_not_created _DEFAULT).
Proof.
  intros rootdir name obj module bm w Hne Hfree Hnodef Hopen Hm Hsys Hbl.
  rewrite session_open_eq by done.
  set (ws := session_start rootdir name w).
  assert (_contexts ws !! _DEFAULT = None) as Hnodef'.
  { unfold ws, session_start, block_start.
    destruct rootdir; simpl; by rewrite lookup_insert_ne. }
  assert (sys_modules ws !! partition_dot (__name__ module) = Some bm) as Hsys'.
  { unfold ws, session_start, block_start. by destruct rootdir. }
  assert (_contexts ws !! name = Some (session_context w)) as Hreg
    by apply session_start_registered.
  destruct (hook_without_default obj module bm ws Hm Hsys' Hbl Hnodef') as (Hr & _ & Hn).
  assert (Pickler_save_call obj ws
          = (Raise (Exc_not_created _DEFAULT), (_catch_object obj ws).2)) as ->.
  { unfold Pickler_save_call. rewrite bind_eq. unfold get_world.
    assert (Pickler_save ws = Wrapped (Pickler_save w)) as ->.
    { unfold ws, session_start, block_start. by destruct rootdir. }
    cbn [apply_save]. rewrite bind_eq.
    destruct (_catch_object obj ws) as [r w1]. simpl in Hr. by rewrite Hr. }
  unfold session_finish, block_finish.
  assert (∀ wx, _contexts wx = _contexts ws →
            _contexts (match rootdir with
                       | Some _ => wx
                       | None => (rmtree (tempdir_name (patch_enter w)) wx).2
                       end) !! name = Some (session_context w)) as Hkeep.
  { intros wx Hx. destruct rootdir; simpl; by rewrite Hx. }
  unfold del_contexts. rewrite (Hkeep _ Hn). done.
Qed.

Lemma save_in_named_session_needs_default_witness :
  "training" ≠ _DEFAULT
  ∧ _contexts imported_process !! "training" = None
  ∧ _contexts imported_process !! _DEFAULT = None
  ∧ can_open None imported_process = true
  ∧ obj_module keras_model = Some mod_A_b
  ∧ sys_modules imported_process !! partition_dot (__name__ mod_A_b) = Some mod_A
  ∧ (__name__ mod_A ∉ _BLACKLIST)
  ∧ (AcumosContextManager None "training"
       (fun _ => Pickler_save_call keras_model) imported_process).1
    = Raise (Exc_not_created _DEFAULT).
Proof.
  assert ("training" ≠ _DEFAULT) as H1 by done.
  assert (_contexts imported_process !! "training" = None) as H2 by (vm_compute; reflexivity).
  assert (_contexts imported_process !! _DEFAULT = None) as H3 by (vm_compute; reflexivity).
  assert (can_open None imported_process = true) as H4 by (vm_compute; reflexivity).
  assert (obj_module keras_model = Some mod_A_b) as H5 by reflexivity.
  assert (sys_modules imported_process !! partition_dot (__name__ mod_A_b) = Some mod_A) as H6
    by (vm_compute; reflexivity).
  assert (__name__ mod_A ∉ _BLACKLIST) as H7.
  { unfold _BLACKLIST. simpl. set_solver. }
  split_and!; [exact H1 | exact H2 | exact H3 | exact H4 | exact H5 | exact H6 | exact H7 |].
  exact (save_in_named_session_needs_default None "training" keras_model mod_A_b mod_A
           imported_process H1 H2 H3 H4 H5 H6 H7).
Defined.

(** ** Constructing a context *)

(** A computation that changes nothing but the context objects. *)
Lemma only_contexts_bind {A B} (m : M A) (f : A → M B) :
  (∀ w, ∃ objs, (m w).2 = set_context_objects (fun _ => objs) w) →
  (∀ a w, ∃ objs, (f a w).2 = set_context_objects (fun _ => objs) w) →
  ∀ w, ∃ objs, ((m ≫= f) w).2 = set_context_objects (fun _ => objs) w.
Proof.
  intros Hm Hf w. rewrite bind_eq. destruct (Hm w) as [o1 H1].
  destruct (m w) as [[a|e] w1]; simpl in H1; subst w1.
  - destruct (Hf a (set_context_objects (fun _ => o1) w)) as [o2 H2].
    exists o2. by rewrite H2.
  - by exists o1.
Qed.

Lemma only_contexts_id (w : World) :
  w = set_context_objects (fun _ => context_objects w) w.
Proof. by destruct w. Qed.

Lemma add_module_only_contexts (self : nat) (arg : ModuleArg) (w : World) :
  ∃ objs, (add_module self arg w).2 = set_context_objects (fun _ => objs) w.
Proof.
  unfold add_module. rewrite bind_eq.
  destruct arg as [name|m|]; try (eexists; apply only_contexts_id).
  - destruct (import_module name w); [|eexists; apply only_contexts_id].
    by eexists.
  - by eexists.
Qed.

Lemma init_only_contexts (root_dir : string) (w : World) :
  ∃ objs, (AcumosContext__init__ root_dir w).2 = set_context_objects (fun _ => objs) w.
Proof.
  unfold AcumosContext__init__.
  revert w. apply only_contexts_bind.
  { intros w. eexists. apply only_contexts_id. }
  intros w0 w. destruct (negb _); [eexists; apply only_contexts_id|].
  revert w. apply only_contexts_bind; [intros w; by eexists|]. intros _.
  apply only_contexts_bind.
  { intros w. unfold _load_params. destruct (isfile _ w);
      [destruct (fs_files w !! _) as [[]|]|]; eexists; apply only_contexts_id. }
  intros params. apply only_contexts_bind; [intros w; by eexists|]. intros _.
  apply only_contexts_bind; [|intros _ w; eexists; apply only_contexts_id].
  simpl. apply only_contexts_bind; [apply add_module_only_contexts|]. intros _.
  apply only_contexts_bind; [apply add_module_only_contexts|]. intros _ w.
  eexists. apply only_contexts_id.
Qed.

Lemma init_missing_root (root_dir : string) (w : World) :
  isdir root_dir w = false →
  AcumosContext__init__ root_dir w = (Raise (Exc_root_directory_missing root_dir), w).
Proof.
  intros Hdir. unfold AcumosContext__init__. rewrite bind_eq. unfold get_world.
  by rewrite Hdir.
Qed.

(** Construction fails when the parameter file does not load or a default
    module cannot be imported. *)
Lemma init_fails (root_dir : string) (w : World) :
  isdir root_dir w = true →
  loadable (path_join root_dir "context.json") w && defaults_importable w = false →
  ∃ e, (AcumosContext__init__ root_dir w).1 = Raise e
    ∧ (e = JSONDecodeError (path_join root_dir "context.json")
       ∨ ∃ name, name ∈ _DEFAULT_MODULES ∧ e = Exc_module_not_importable name).
Proof.
  intros Hdir Hbad.
  unfold AcumosContext__init__. rewrite bind_eq. unfold get_world. rewrite Hdir.
  cbn [negb]. cbn beta iota.
  set (path := path_join root_dir "context.json") in *.
  set (self := fresh (dom (context_objects w))).
  rewrite bind_eq. unfold modify at 1. cbn beta iota.
  rewrite bind_eq.
  set (w1 := set_context_objects _ w).
  assert (_params_path (context_at self w1) = path) as Hpath.
  { unfold context_at, w1. simpl. by rewrite lookup_total_insert_eq. }
  destruct (loadable path w) eqn:Hload.
  - rewrite load_params_ok by (rewrite Hpath; done).
    rewrite bind_eq. unfold update_context at 1, modify at 1. cbn beta iota.
    rewrite bind_eq. cbn [for_each _DEFAULT_MODULES].
    simpl in Hbad. unfold defaults_importable in Hbad. simpl in Hbad.
    rewrite bind_eq.
    unfold add_module at 1. rewrite bind_eq. unfold import_module at 1.
    match goal with |- context [sys_modules ?x !! "gcumos"] =>
      change (sys_modules x) with (sys_modules w) end.
    destruct (sys_modules w !! "gcumos") as [gm|] eqn:Hg.
    + unfold update_context at 1, modify at 1. cbn beta iota.
      rewrite bind_eq. unfold add_module at 1. rewrite bind_eq.
      unfold import_module at 1.
      match goal with |- context [sys_modules ?x !! "dill"] =>
        change (sys_modules x) with (sys_modules w) end.
      destruct (sys_modules w !! "dill") as [dm|] eqn:Hd.
      * exfalso. revert Hbad.
        rewrite !bool_decide_eq_true_2 by (by eexists). done.
      * eexists. split; [reflexivity|]. right. exists "dill". split; [|done].
        unfold _DEFAULT_MODULES. set_solver.
    + eexists. split; [reflexivity|]. right. exists "gcumos". split; [|done].
      unfold _DEFAULT_MODULES. set_solver.
  - unfold _load_params. rewrite Hpath.
    unfold loadable in Hload.
    replace (fs_files w1) with (fs_files w) by done.
    unfold isfile. replace (fs_files w1) with (fs_files w) by done.
    destruct (fs_files w !! path) as [[doc|text]|] eqn:E; try done.
    rewrite bool_decide_eq_true_2 by (by eexists).
    eexists. split; [reflexivity|]. by left.
Qed.

Lemma can_open_explicit (d : string) (w : World) :
  can_open (Some d) w
  = defaults_importable w && isdir d w && loadable (path_join d "context.json") w.
Proof. reflexivity. Qed.

(** X7.  [AcumosContext(root_dir)] raises, and leaves the state as it was, when
    [root_dir] is not an existing directory.  When the directory exists, the
    default modules are loaded and [context.json], if there is one, is a
    JSON document, the constructor returns.  When it returns, the directory
    exists, the context is a new object, its root and parameter path are
    [root_dir] and [root_dir/context.json], its module set is exactly the
    default modules, its parameters are those of the parameter file (empty
    without one), and nothing else has changed: no file, no directory, no
    registration, no other context. *)
Theorem AcumosContext_construction :
  (∀ (root_dir : string) (w : World),
      isdir root_dir w = false →
      AcumosContext__init__ root_dir w = (Raise (Exc_root_directory_missing root_dir), w))
  ∧ (∀ (root_dir : string) (w : World),
      isdir root_dir w = true →
      defaults_importable w = true →
      loadable (path_join root_dir "context.json") w = true →
      ∃ c w', AcumosContext__init__ root_dir w = (Ok c, w'))
  ∧ (∀ (root_dir : string) (w w' : World) (c : nat),
      AcumosContext__init__ root_dir w = (Ok c, w') →
      isdir root_dir w = true
      ∧ (c ∉ dom (context_objects w))
      ∧ abspath (context_at c w') = root_dir
      ∧ _params_path (context_at c w') = path_join root_dir "context.json"
      ∧ (∀ m, m ∈ modules (context_at c w')
              ↔ ∃ name, name ∈ _DEFAULT_MODULES ∧ sys_modules w !! name = Some m)
      ∧ parameters (context_at c w')
        = match fs_files w !! path_join root_dir "context.json" with
          | Some (JsonDocument doc) => doc
          | _ => ∅
          end
      ∧ w' = set_context_objects <[c := context_at c w']> w).
Proof.
  split; [apply init_missing_root|]. split.
  { intros root_dir w Hdir Himp Hload.
    destruct (AcumosContext__init__loads root_dir w Hdir Hload Himp) as (c & w' & Hok & _).
    by exists c, w'. }
  intros root_dir w w' c Hok.
  destruct (isdir root_dir w) eqn:Hdir.
  2:{ rewrite init_missing_root in Hok by done. done. }
  destruct (loadable (path_join root_dir "context.json") w && defaults_importable w) eqn:Hc.
  2:{ destruct (init_fails root_dir w Hdir Hc) as (e & He & _).
      rewrite Hok in He. done. }
  apply andb_true_iff in Hc as [Hload Himp].
  destruct (defaults_importable_spec w Himp) as (gm & dm & Hg & Hd).
  rewrite (AcumosContext__init__ok root_dir w gm dm) in Hok by done.
  injection Hok as <- <-.
  unfold context_at, abspath, modules. simpl. rewrite lookup_total_insert_eq.
  split_and!; try done.
  - apply is_fresh.
  - intros m. unfold new_context, default_modules. simpl. rewrite Hg, Hd. simpl.
    unfold _DEFAULT_MODULES. split.
    + intros [->%elem_of_singleton|[->%elem_of_singleton|?]%elem_of_union]%elem_of_union.
      * exists "dill". split; [set_solver|done].
      * exists "gcumos". split; [set_solver|done].
      * set_solver.
    + intros (name & Hin & Hm).
      apply elem_of_cons in Hin as [->|Hin].
      * rewrite Hg in Hm. injection Hm as <-. set_solver.
      * apply elem_of_cons in Hin as [->|Hin]; [|by apply elem_of_nil in Hin].
        rewrite Hd in Hm. injection Hm as <-. set_solver.
Qed.

Lemma AcumosContext_construction_witness :
  isdir "/work" imported_process = true
  ∧ defaults_importable imported_process = true
  ∧ loadable (path_join "/work" "context.json") imported_process = true
  ∧ ∃ c w', AcumosContext__init__ "/work" imported_process = (Ok c, w')
      ∧ abspath (context_at c w') = "/work"
      ∧ _params_path (context_at c w') = path_join "/work" "context.json"
      ∧ parameters (context_at c w') = ∅.
Proof.
  assert (isdir "/work" imported_process = true) as H1 by (vm_compute; reflexivity).
  assert (defaults_importable imported_process = true) as H2 by (vm_compute; reflexivity).
  assert (loadable (path_join "/work" "context.json") imported_process = true) as H3
    by (vm_compute; reflexivity).
  split_and!; [exact H1 | exact H2 | exact H3 |].
  destruct (proj1 (proj2 AcumosContext_construction) "/work" imported_process H1 H2 H3)
    as (c & w' & Hok).
  destruct (proj2 (proj2 AcumosContext_construction) "/work" imported_process w' c Hok)
    as (_ & _ & Ha & Hp & _ & Hparams & _).
  exists c, w'. split_and!; [exact Hok | exact Ha | exact Hp |].
  rewrite Hparams. reflexivity.
Defined.

(** ** Failures while a session is opened *)

Lemma is_under_refl (root : string) : is_under root root = true.
Proof. unfold is_under. by rewrite bool_decide_eq_true_2. Qed.

Lemma session_block_fails {A} rootdir name (body : nat → M A) (w : World) :
  _contexts w !! name = None →
  can_open rootdir w = false →
  ∃ w', session_block rootdir name body w = (Raise (KeyError name), w')
    ∧ _contexts w' = _contexts w
    ∧ fs_files w' ⊆ fs_files w
    ∧ fs_dirs w' ⊆ fs_dirs w
    ∧ (tempdir_name w ∉ fs_dirs w').
Proof.
  intros Hfree Hbad.
  assert (tempdir_name w ∉ fs_dirs w) as Hfresh.
  { unfold tempdir_name. intros Hin.
    apply (is_fresh (fs_dirs w ∪ dom (fs_files w))). apply elem_of_union. by left. }
  unfold session_block. rewrite bind_eq. unfold get_world at 1.
  rewrite bool_decide_eq_false_2 by (rewrite Hfree; by intros [? ?]).
  unfold try_finally at 1.
  destruct rootdir as [d|].
  - cbn [_DirManager]. rewrite bind_eq. unfold get_world at 1.
    destruct (isdir d w) eqn:Hdir; cbn [negb].
    + rewrite can_open_explicit, Hdir in Hbad.
      assert (loadable (path_join d "context.json") w && defaults_importable w = false) as Hc.
      { destruct (defaults_importable w), (loadable _ w); done. }
      destruct (init_fails d w Hdir Hc) as (e & He & _).
      destruct (init_only_contexts d w) as (objs & Hw).
      rewrite bind_eq.
      destruct (AcumosContext__init__ d w) as [r w1]. simpl in He, Hw. subst r w1.
      unfold del_contexts. simpl. rewrite Hfree.
      eexists. split; [reflexivity|]. by split_and!.
    + unfold raise, del_contexts. rewrite Hfree.
      eexists. split; [reflexivity|]. by split_and!.
  - cbn [_DirManager]. rewrite bind_eq. unfold mkdtemp at 1. fold (tempdir_name w).
    set (tdir := tempdir_name w) in *.
    set (wt := set_fs_dirs (fun dirs => {[tdir]} ∪ dirs) w).
    unfold try_finally at 1.
    assert (isdir tdir wt = true) as Hdir.
    { unfold isdir, wt. simpl. apply bool_decide_eq_true. set_solver. }
    assert (loadable (path_join tdir "context.json") wt && defaults_importable wt = false) as Hc.
    { unfold can_open in Hbad. simpl in Hbad. fold tdir in Hbad.
      replace (loadable (path_join tdir "context.json") wt)
        with (loadable (path_join tdir "context.json") w) by done.
      replace (defaults_importable wt) with (defaults_importable w) by done.
      destruct (defaults_importable w), (loadable _ w); done. }
    destruct (init_fails tdir wt Hdir Hc) as (e & He & _).
    destruct (init_only_contexts tdir wt) as (objs & Hw).
    rewrite bind_eq.
    destruct (AcumosContext__init__ tdir wt) as [r w1]. simpl in He, Hw. subst r w1.
    unfold rmtree, modify, del_contexts. simpl. rewrite Hfree.
    eexists. split; [reflexivity|]. simpl. split_and!; [done | | |].
    + apply map_filter_subseteq.
    + intros p [Hp Hin]%elem_of_filter.
      apply elem_of_union in Hin as [->%elem_of_singleton|Hin]; [|done].
      by rewrite is_under_refl in Hp.
    + intros [Hp _]%elem_of_filter. by rewrite is_under_refl in Hp.
Qed.

(** X8.  Whatever goes wrong between the name check and the registration of
    the context (the explicit root directory does not exist, a default module
    cannot be imported, [context.json] does not load), the [finally] clause
    runs [del _contexts[name]] for a name that was not registered, and the
    caller sees [KeyError(name)].  The block is not run, the registry is as
    before, no file or directory is left behind, and a temporary directory
    that was created is removed again. *)
Theorem failed_open_raises_KeyError :
  ∀ A (rootdir : option string) (name : string) (body : nat → M A) (w : World),
    _contexts w !! name = None →
    can_open rootdir w = false →
    (AcumosContextManager rootdir name body w).1 = Raise (KeyError name)
    ∧ _contexts (AcumosContextManager rootdir name body w).2 = _contexts w
    ∧ fs_files (AcumosContextManager rootdir name body w).2 ⊆ fs_files w
    ∧ fs_dirs (AcumosContextManager rootdir name body w).2 ⊆ fs_dirs w
    ∧ (tempdir_name w ∉ fs_dirs (AcumosContextManager rootdir name body w).2).
Proof.
  intros A rootdir name body w Hfree Hbad.
  rewrite AcumosContextManager_eq, _patch_dill_eq.
  destruct (session_block_fails rootdir name body (patch_enter w)) as (w' & -> & H1 & H2 & H3 & H4);
    [done | done |].
  simpl. by split_and!.
Qed.

Lemma failed_open_raises_KeyError_witness :
  _contexts broken_process !! "default" = None
  ∧ can_open (Some "/work") broken_process = false
  ∧ (AcumosContextManager (Some "/work") "default" (fun c => mret c) broken_process).1
    = Raise (KeyError "default").
Proof.
  assert (_contexts broken_process !! "default" = None) as H1 by (vm_compute; reflexivity).
  assert (can_open (Some "/work") broken_process = false) as H2 by (vm_compute; reflexivity).
  split; [exact H1|]. split; [exact H2|].
  exact (proj1 (failed_open_raises_KeyError nat (Some "/work") "default"
                  (fun c => mret c) broken_process H1 H2)).
Defined.

(** ** The life of a session *)

Lemma session_finish_dirs {A} rootdir name (w : World) (r : Result A) (w2 : World) :
  fs_dirs (session_finish rootdir name w (r, w2)).2
  = match rootdir with
    | Some _ => fs_dirs w2
    | None => filter (fun d => is_under (tempdir_name w) d = false) (fs_dirs w2)
    end.
Proof.
  unfold session_finish, block_finish.
  assert (∃ r1 w1, (match r with
                    | Ok v =>
                        match save_params (session_context (patch_enter w)) w2 with
                        | (Ok _, w') => (Ok v, w')
                        | (Raise e, w') => (Raise e, w')
                        end
                    | Raise e => (Raise e, w2)
                    end) = (r1, w1) ∧ fs_dirs w1 = fs_dirs w2) as (r1 & w1 & -> & Hd).
  { destruct r as [v|e]; [|by eexists _, _].
    unfold save_params. destruct (isdir _ w2); by eexists _, _. }
  match goal with |- context [del_contexts name ?x] =>
    pose proof (del_contexts_fs name x) as [_ Hdel];
    destruct (del_contexts name x) as [[[]|e'] w4] end;
    simpl in *; rewrite Hdel; destruct rootdir; simpl; by rewrite Hd.
Qed.

(** X9.  A session opened without a root directory works in a temporary
    directory: a directory that did not exist before, exists while the block
    runs and is the root of the context.  When the statement is left, by
    return or by exception, the directory and everything below it is gone.
    A session over an explicit root directory creates and removes no
    directory. *)
Theorem temporary_directory_lifetime :
  (∀ A (name : string) (body : nat → M A) (w : World),
      _contexts w !! name = None →
      can_open None w = true →
      let tdir := tempdir_name w in
      let c := session_context w in
      let start := session_start None name w in
      let final := AcumosContextManager None name body w in
      isdir tdir w = false
      ∧ isdir tdir start = true
      ∧ abspath (context_at c start) = tdir
      ∧ fs_dirs final.2
        = filter (fun d => is_under tdir d = false) (fs_dirs (body c start).2)
      ∧ isdir tdir final.2 = false)
  ∧ (∀ A (d name : string) (body : nat → M A) (w : World),
      _contexts w !! name = None →
      can_open (Some d) w = true →
      fs_dirs (AcumosContextManager (Some d) name body w).2
      = fs_dirs (body (session_context w) (session_start (Some d) name w)).2).
Proof.
  split.
  - intros A name body w Hfree Hopen tdir c start final.
    assert (fs_dirs final.2
            = filter (fun d => is_under tdir d = false) (fs_dirs (body c start).2)) as Hfin.
    { unfold final. rewrite session_open_eq by done. fold c. fold start.
      destruct (body c start) as [r w2]. apply (session_finish_dirs None). }
    split_and!.
    + unfold isdir. apply bool_decide_eq_false. unfold tdir, tempdir_name.
      intros Hin. apply (is_fresh (fs_dirs w ∪ dom (fs_files w))).
      apply elem_of_union. by left.
    + apply (session_start_isdir None name w Hopen).
    + unfold abspath, c, start. by rewrite session_start_context.
    + exact Hfin.
    + unfold isdir. apply bool_decide_eq_false. rewrite Hfin.
      intros [Hp _]%elem_of_filter. by rewrite is_under_refl in Hp.
  - intros A d name body w Hfree Hopen.
    rewrite session_open_eq by done.
    destruct (body _ _) as [r w2]. apply (session_finish_dirs (Some d)).
Qed.

Lemma temporary_directory_lifetime_witness :
  _contexts imported_process !! "default" = None
  ∧ can_open None imported_process = true
  ∧ isdir (tempdir_name imported_process)
      (AcumosContextManager None "default" (fun c => raise (A:=unit) (UserError "boom"))
         imported_process).2 = false.
Proof.
  assert (_contexts imported_process !! "default" = None) as H1 by (vm_compute; reflexivity).
  assert (can_open None imported_process = true) as H2 by (vm_compute; reflexivity).
  split; [exact H1|]. split; [exact H2|].
  exact (proj2 (proj2 (proj2 (proj2
           (proj1 temporary_directory_lifetime unit "default"
              (fun c => raise (UserError "boom")) imported_process H1 H2))))).
Defined.

(** The outcome of a session whose block returns. *)
Lemma session_result_ok {A} rootdir name (body : nat → M A) (w : World) (v : A) (w2 : World) :
  _contexts w !! name = None →
  can_open rootdir w = true →
  body (session_context w) (session_start rootdir name w) = (Ok v, w2) →
  isdir (_root_dir (context_at (session_context w) w2)) w2 = true →
  is_Some (_contexts w2 !! name) →
  ∃ w', AcumosContextManager rootdir name body w = (Ok v, w')
    ∧ _contexts w' = delete name (_contexts w2)
    ∧ context_objects w' = context_objects w2
    ∧ sys_modules w' = sys_modules w2
    ∧ Pickler_save w' = Pickler_save w
    ∧ Pickler_dispatch w' = Pickler_dispatch w
    ∧ fs_dirs w'
      = match rootdir with
        | Some _ => fs_dirs w2
        | None => filter (fun d => is_under (tempdir_name w) d = false) (fs_dirs w2)
        end
    ∧ fs_files w'
      = cleanup rootdir w
          (<[_params_path (context_at (session_context w) w2)
             := JsonDocument (parameters (context_at (session_context w) w2))]>
             (fs_files w2)).
Proof.
  intros Hfree Hopen Hbody Hdir [c' Hreg].
  rewrite session_open_eq, Hbody by done.
  unfold session_finish, block_finish.
  replace (session_context (patch_enter w)) with (session_context w) by done.
  replace (tempdir_name (patch_enter w)) with (tempdir_name w) by done.
  cbn beta iota zeta. unfold save_params. rewrite Hdir. cbn beta iota zeta.
  unfold del_contexts.
  destruct rootdir as [d|]; cbn [rmtree modify snd fst _contexts set_fs_files set_fs_dirs];
    rewrite Hreg; (eexists; split; [reflexivity|]); by split_and!.
Qed.






(** ** The parameter file *)



(** ** Paths *)

Lemma append_cons (x : ascii) (a b : string) : String x a ++ b = String x (a ++ b).
Proof. reflexivity. Qed.

Lemma append_nil_l (b : string) : EmptyString ++ b = b.
Proof. reflexivity. Qed.

Lemma append_nil_r (a : string) : a ++ EmptyString = a.
Proof. induction a as [|x a IH]; [done|]. by rewrite append_cons, IH. Qed.

Lemma string_app_assoc (a b c : string) : (a ++ b) ++ c = a ++ (b ++ c).
Proof.
  induction a as [|x a IH]; [by rewrite !append_nil_l|].
  by rewrite !append_cons, IH.
Qed.

Lemma has_slash_app_slash (a d : string) : has_slash (a ++ String "/" d) = true.
Proof.
  induction a as [|c a IH]; [done|].
  rewrite append_cons. cbn [has_slash]. rewrite IH. apply orb_true_r.
Qed.

Lemma basename_no_slash (d : string) : has_slash d = false → basename d = d.
Proof.
  destruct d as [|c d]; [done|]. simpl.
  intros [Hc Hd]%orb_false_iff. by rewrite Hd, Hc.
Qed.

Lemma basename_app_slash (a d : string) :
  has_slash d = false → basename (a ++ String "/" d) = d.
Proof.
  intros Hd. induction a as [|c a IH].
  - rewrite append_nil_l. simpl. by rewrite Hd.
  - rewrite append_cons. cbn [basename]. by rewrite has_slash_app_slash.
Qed.

Lemma ends_with_slash_inv (a : string) :
  ends_with_slash a = true → ∃ r, a = r ++ "/".
Proof.
  induction a as [|c a IH]; [done|].
  destruct a as [|c' a'].
  - simpl. intros Hc%Ascii.eqb_eq. subst c. by exists EmptyString.
  - intros H. destruct IH as [r Hr]; [exact H|].
    exists (String c r). by rewrite append_cons, <- Hr.
Qed.

Lemma path_join_relative (a b : string) :
  (∀ rest, b ≠ String "/" rest) →
  path_join a b
  = if decide (a = EmptyString) then b
    else if ends_with_slash a then a ++ b else a ++ "/" ++ b.
Proof.
  intros Hrel. unfold path_join.
  destruct b as [|c b]; [done|].
  destruct (Ascii.eqb c "/") eqn:E.
  - apply Ascii.eqb_eq in E. subst c. by destruct (Hrel b).
  - destruct c as [[] [] [] [] [] [] [] []]; try done.
Qed.

Lemma no_slash_relative (d : string) :
  has_slash d = false → ∀ rest, d ≠ String "/" rest.
Proof. intros H rest ->. done. Qed.

Lemma basename_path_join (root d : string) :
  has_slash d = false → basename (path_join root d) = d.
Proof.
  intros Hd. rewrite path_join_relative by (by apply no_slash_relative).
  destruct (decide (root = EmptyString)); [by apply basename_no_slash|].
  destruct (ends_with_slash root) eqn:E.
  - apply ends_with_slash_inv in E as [r ->].
    rewrite string_app_assoc. by apply basename_app_slash.
  - by apply (basename_app_slash root d).
Qed.

Lemma path_join_all_app (a : string) (ps qs : list string) :
  path_join_all a (ps ++ qs) = path_join_all (path_join_all a ps) qs.
Proof. unfold path_join_all. apply fold_left_app. Qed.

(** X14.  [build_path()] without components is the context root.  When every
    component is relative, the result starts with the root.  An absolute
    component discards what precedes it, the root included: the result is
    the join of that component with the ones after it. *)
Theorem build_path_and_the_root :
  (∀ c : AcumosContext, build_path c [] = abspath c)
  ∧ (∀ (c : AcumosContext) (paths : list string),
      Forall (fun p => ∀ rest, p ≠ String "/" rest) paths →
      ∃ rest, build_path c paths = abspath c ++ rest)
  ∧ (∀ (c : AcumosContext) (before after : list string) (rest : string),
      build_path c (before ++ String "/" rest :: after)
      = path_join_all (String "/" rest) after).
Proof.
  split_and!.
  - done.
  - intros c paths Hrel. unfold build_path, abspath.
    assert (∀ acc, (∃ r, acc = _root_dir c ++ r) →
                   ∃ r, path_join_all acc paths = _root_dir c ++ r) as H.
    { induction Hrel as [|p paths Hp _ IH]; intros acc Hacc; [done|].
      apply IH. destruct Hacc as [r ->].
      rewrite path_join_relative by done.
      destruct (decide (_ = EmptyString)) as [He|_].
      - exists p. destruct (_root_dir c) as [|x s]; [by rewrite append_nil_l|].
        by rewrite append_cons in He.
      - destruct (ends_with_slash _); eexists; by rewrite string_app_assoc. }
    apply H. exists EmptyString. by rewrite append_nil_r.
  - intros c before after rest. unfold build_path.
    rewrite path_join_all_app. done.
Qed.

Lemma build_path_and_the_root_witness :
  Forall (fun p => ∀ rest, p ≠ String "/" rest) ["models"; "v1"]
  ∧ ∃ rest, build_path sample_context ["models"; "v1"] = abspath sample_context ++ rest.
Proof.
  assert (Forall (fun p => ∀ rest, p ≠ String "/" rest) ["models"; "v1"]) as H.
  { repeat constructor; by intros rest. }
  split; [exact H|].
  exact (proj1 (proj2 build_path_and_the_root) sample_context ["models"; "v1"] H).
Defined.

(** X15.  For a file in a subdirectory of the context root named by one
    component without a slash, [_add_file] returns the path under that
    subdirectory together with the context-relative pair (subdirectory name,
    file name). *)
Theorem add_file_relative_path :
  ∀ (c : AcumosContext) (subdir name : string),
    has_slash subdir = false →
    _add_file (build_path c [subdir]) name
    = (path_join (build_path c [subdir]) name, (subdir, name)).
Proof.
  intros c subdir name Hs. unfold _add_file, build_path, path_join_all. simpl.
  by rewrite basename_path_join.
Qed.

Lemma add_file_relative_path_witness :
  has_slash "scripts" = false
  ∧ _add_file (build_path sample_context ["scripts"]) "train.py"
    = (path_join (build_path sample_context ["scripts"]) "train.py",
       ("scripts", "train.py")).
Proof.
  assert (has_slash "scripts" = false) as H by reflexivity.
  split; [exact H|].
  exact (add_file_relative_path sample_context "scripts" "train.py" H).
Defined.

(** ** The annotation decoder *)

(** X16.  [_load_annotation] indexes the argument tuple without checking its
    length.  For [Dict] it needs two arguments and for [List] one: with
    fewer it raises [IndexError], with more it uses the first two (the first
    one) and ignores the rest.  For any other type, and whenever the
    argument tuple is [None], it returns the type as it is. *)
Theorem load_annotation_bounds :
  (∀ args : list PyType,
      length args < 2 → _load_annotation typing_Dict (Some args) = Raise IndexError)
  ∧ (∀ (a0 a1 : PyType) (more : list PyType),
      _load_annotation typing_Dict (Some (a0 :: a1 :: more))
      = Ok (Subscript typing_Dict [a0; a1]))
  ∧ (_load_annotation typing_List (Some []) = Raise IndexError)
  ∧ (∀ (a0 : PyType) (more : list PyType),
      _load_annotation typing_List (Some (a0 :: more)) = Ok (Subscript typing_List [a0]))
  ∧ (∀ (t : PyType) (args : option (list PyType)),
      (args = None ∨ (t ≠ typing_Dict ∧ t ≠ typing_List)) →
      _load_annotation t args = Ok t).
Proof.
  split_and!.
  - intros [|a0 [|a1 more]] Hlen; simpl in *; try done. lia.
  - done.
  - done.
  - done.
  - intros t args [->|[Hd Hl]]; [by destruct t|].
    destruct t; try done.
Qed.

Lemma load_annotation_bounds_witness :
  length [Class "builtins.str"] < 2
  ∧ _load_annotation typing_Dict (Some [Class "builtins.str"]) = Raise IndexError.
Proof.
  assert (length [Class "builtins.str"] < 2) as H by (simpl; lia).
  split; [exact H|].
  exact (proj1 load_annotation_bounds [Class "builtins.str"] H).
Defined.

(** ** Subdirectories of a context *)

Lemma strip_prefix_app (pre s : string) : strip_prefix pre (pre ++ s) = Some s.
Proof.
  induction pre as [|c pre IH]; [done|].
  rewrite append_cons. cbn [strip_prefix]. by rewrite Ascii.eqb_refl.
Qed.

Lemma fresh_suffix_new (pfx : string) (S : gset string) :
  pfx ++ fresh (list_to_set (C := gset string) (omap (strip_prefix pfx) (elements S))) ∉ S.
Proof.
  intros Hin.
  apply (is_fresh (list_to_set (C := gset string) (omap (strip_prefix pfx) (elements S)))).
  apply elem_of_list_to_set, list_elem_of_omap.
  eexists. split; [by apply elem_of_elements|]. apply strip_prefix_app.
Qed.

Lemma path_join_tmp (dir_ name : string) :
  path_join dir_ "tmp" ++ name = path_join dir_ ("tmp" ++ name).
Proof.
  unfold path_join. cbn [String.append].
  destruct (decide (dir_ = EmptyString)); [done|].
  destruct (ends_with_slash dir_); by rewrite !string_app_assoc.
Qed.

Lemma mkdtemp_in_ok (dir_ : string) (w : World) :
  isdir dir_ w = true →
  ∃ name,
    mkdtemp_in dir_ w
    = (inr (path_join dir_ ("tmp" ++ name)),
       set_fs_dirs (fun dirs => {[path_join dir_ ("tmp" ++ name)]} ∪ dirs) w)
    ∧ path_exists (path_join dir_ ("tmp" ++ name)) w = false.
Proof.
  intros Hd. unfold mkdtemp_in. rewrite Hd.
  eexists. rewrite path_join_tmp. split; [reflexivity|].
  rewrite <- path_join_tmp.
  pose proof (fresh_suffix_new (path_join dir_ "tmp") (fs_dirs w ∪ dom (fs_files w))) as Hnew.
  unfold path_exists, isdir, isfile. apply orb_false_iff. split.
  - apply bool_decide_eq_false. intros Hin. apply Hnew, elem_of_union. by left.
  - apply bool_decide_eq_false. intros Hin. apply Hnew, elem_of_union. right.
    by apply elem_of_dom.
Qed.

(** X17.  [create_subdir()] without components, on a context whose root is a
    directory, makes a new directory [tmp...] directly in the root, under a
    name that neither a directory nor a file had: nothing else of the file
    system changes, [exist_ok] plays no role, and a second call gives
    another directory.  When the root is not a directory (any more), the
    call fails and creates nothing. *)
Theorem create_subdir_temporary :
  (∀ (self : nat) (exist_ok : bool) (w : World),
      isdir (abspath (context_at self w)) w = true →
      ∃ name tdir w',
        create_subdir self [] exist_ok w = (inr tdir, w')
        ∧ tdir = build_path (context_at self w) ["tmp" ++ name]
        ∧ path_exists tdir w = false
        ∧ fs_dirs w' = {[tdir]} ∪ fs_dirs w
        ∧ fs_files w' = fs_files w
        ∧ ∃ tdir2 w'',
            create_subdir self [] exist_ok w' = (inr tdir2, w'') ∧ tdir2 ≠ tdir)
  ∧ (∀ (self : nat) (exist_ok : bool) (w : World),
      isdir (abspath (context_at self w)) w = false →
      ∃ e, create_subdir self [] exist_ok w = (inl e, w)).
Proof.
  split.
  - intros self exist_ok w Hd. unfold abspath in Hd.
    destruct (mkdtemp_in_ok _ w Hd) as (name & Hrun & Hnew).
    eexists name, _, _. split_and!; [exact Hrun|done|exact Hnew|done|done|].
    set (tdir := path_join (_root_dir (context_at self w)) ("tmp" ++ name)) in *.
    set (w' := set_fs_dirs (fun dirs => {[tdir]} ∪ dirs) w).
    assert (isdir (_root_dir (context_at self w')) w' = true) as Hd'.
    { unfold isdir in *. apply bool_decide_eq_true. apply bool_decide_eq_true in Hd.
      apply elem_of_union. by right. }
    destruct (mkdtemp_in_ok _ w' Hd') as (name2 & Hrun2 & Hnew2).
    eexists _, _. split; [exact Hrun2|].
    intros Heq. apply orb_false_iff in Hnew2 as [Hnd _].
    apply bool_decide_eq_false in Hnd. apply Hnd.
    rewrite Heq.
    apply elem_of_union. left. by apply elem_of_singleton.
  - intros self exist_ok w Hd. unfold abspath in Hd.
    unfold create_subdir, mkdtemp_in. rewrite Hd.
    destruct (isfile _ w); by eexists.
Qed.

Lemma create_subdir_temporary_witness :
  let w := session_start (Some "/work") "default" imported_process in
  let self := session_context imported_process in
  isdir (abspath (context_at self w)) w = true
  ∧ ∃ name tdir w',
      create_subdir self [] false w = (inr tdir, w')
      ∧ tdir = build_path (context_at self w) ["tmp" ++ name]
      ∧ path_exists tdir w = false
      ∧ fs_dirs w' = {[tdir]} ∪ fs_dirs w
      ∧ fs_files w' = fs_files w
      ∧ ∃ tdir2 w'',
          create_subdir self [] false w' = (inr tdir2, w'') ∧ tdir2 ≠ tdir.
Proof.
  intros w self.
  assert (isdir (abspath (context_at self w)) w = true) as H by (vm_compute; reflexivity).
  split; [exact H|].
  exact (proj1 create_subdir_temporary self false w H).
Defined.

Lemma parents_from_no_slash (acc d : string) :
  has_slash d = false → parents_from acc d = [].
Proof.
  revert acc. induction d as [|c d IH]; intros acc; [done|].
  cbn [has_slash parents_from]. intros [Hc Hd]%orb_false_iff.
  rewrite Hc. cbn. by apply IH.
Qed.

Lemma last_parents_from (acc r d : string) :
  acc ++ r ≠ EmptyString → ends_with_slash (acc ++ r) = false →
  has_slash d = false →
  list.last (parents_from acc (r ++ String "/" d)) = Some (acc ++ r).
Proof.
  revert acc. induction r as [|c r IH]; intros acc Hne Hend Hd.
  - rewrite append_nil_r in *. rewrite append_nil_l. cbn [parents_from].
    rewrite Hend, (bool_decide_eq_false_2 _ Hne). cbn.
    by rewrite parents_from_no_slash.
  - rewrite append_cons. cbn [parents_from].
    assert (acc ++ String c r = (acc ++ String c EmptyString) ++ r) as Heq.
    { by rewrite string_app_assoc, append_cons, append_nil_l. }
    rewrite Heq in *. apply last_app_Some. left. by apply IH.
Qed.

Lemma parents_path_join (root d : string) :
  root ≠ EmptyString → ends_with_slash root = false → plain_name d = true →
  path_join root d = root ++ String "/" d
  ∧ list.last (parents (path_join root d)) = Some root.
Proof.
  intros Hne Hend Hd. unfold plain_name in Hd.
  repeat (apply andb_true_iff in Hd as [Hd ?]).
  assert (has_slash d = false) as Hs by (by apply negb_true_iff).
  assert (path_join root d = root ++ String "/" d) as ->.
  { rewrite path_join_relative by (by apply no_slash_relative).
    rewrite decide_False by done. by rewrite Hend. }
  split; [done|]. unfold parents.
  rewrite (last_parents_from EmptyString root d); by rewrite ?append_nil_l.
Qed.

(** X18.  [create_subdir(d)] for one directory name [d], on a context whose
    root is an existing directory: when nothing is at [root/d], exactly that
    directory is created and returned; when a directory is there, the call
    returns it with [exist_ok=True] and raises [FileExistsError] otherwise;
    when a file is there, it raises [FileExistsError] whatever [exist_ok]
    is.  A failed call changes nothing. *)
Theorem create_subdir_named :
  ∀ (self : nat) (d : string) (exist_ok : bool) (w : World),
    let c := context_at self w in
    let tdir := build_path c [d] in
    isdir (abspath c) w = true →
    abspath c ≠ EmptyString → ends_with_slash (abspath c) = false →
    plain_name d = true →
    create_subdir self [d] exist_ok w
    = if path_exists tdir w then
        if exist_ok && isdir tdir w then (inr tdir, w)
        else (inl (FileExistsError tdir), w)
      else (inr tdir, set_fs_dirs (fun dirs => {[tdir]} ∪ dirs) w).
Proof.
  intros self d exist_ok w c tdir Hroot Hne Hend Hd.
  unfold abspath in *.
  destruct (parents_path_join _ d Hne Hend Hd) as [_ Hlast].
  unfold create_subdir, makedirs. fold c.
  change (path_join_all (_root_dir c) [d]) with (path_join (_root_dir c) d).
  change tdir with (path_join (_root_dir c) d).
  destruct (proj1 (last_Some _ _) Hlast) as [above Habove].
  rewrite Habove, reverse_snoc. cbn [makedirs_heads].
  unfold path_exists at 1. rewrite Hroot. cbn [orb].
  unfold mkdir. rewrite Hlast, Hroot.
  destruct (path_exists (path_join (_root_dir c) d) w) eqn:Hex; [|done].
  destruct exist_ok; cbn [negb orb andb]; [|done].
  by destruct (isdir (path_join (_root_dir c) d) w).
Qed.

Lemma create_subdir_named_witness :
  let w := session_start (Some "/work") "default" imported_process in
  let self := session_context imported_process in
  isdir (abspath (context_at self w)) w = true
  ∧ abspath (context_at self w) ≠ EmptyString
  ∧ ends_with_slash (abspath (context_at self w)) = false
  ∧ plain_name "models" = true
  ∧ create_subdir self ["models"] false w
    = (inr "/work/models", set_fs_dirs (fun dirs => {["/work/models"]} ∪ dirs) w).
Proof.
  intros w self.
  assert (isdir (abspath (context_at self w)) w = true) as H1 by (vm_compute; reflexivity).
  assert (abspath (context_at self w) ≠ EmptyString) as H2 by (vm_compute; discriminate).
  assert (ends_with_slash (abspath (context_at self w)) = false) as H3
    by (vm_compute; reflexivity).
  assert (plain_name "models" = true) as H4 by (vm_compute; reflexivity).
  split_and!; [exact H1|exact H2|exact H3|exact H4|].
  exact (create_subdir_named self "models" false w H1 H2 H3 H4).
Defined.

Lemma set_fs_dirs_empty (w : World) : set_fs_dirs (fun dirs => ∅ ∪ dirs) w = w.
Proof. destruct w. unfold set_fs_dirs. simpl. f_equal. apply (left_id_L ∅ (∪)). Qed.

Lemma set_fs_dirs_union (S1 S2 : gset string) (w : World) :
  set_fs_dirs (fun dirs => S2 ∪ dirs) (set_fs_dirs (fun dirs => S1 ∪ dirs) w)
  = set_fs_dirs (fun dirs => (S2 ∪ S1) ∪ dirs) w.
Proof. unfold set_fs_dirs. simpl. f_equal. by rewrite (assoc_L (∪)). Qed.

Lemma mkdir_grows (p : string) (w : World) :
  ∃ S : gset string,
    (mkdir p w).2 = set_fs_dirs (fun dirs => S ∪ dirs) w
    ∧ (∀ u, (mkdir p w).1 = inr u → isdir p (mkdir p w).2 = true).
Proof.
  assert (isdir p (set_fs_dirs (fun dirs => {[p]} ∪ dirs) w) = true) as Hnew.
  { apply bool_decide_eq_true, elem_of_union. left. by apply elem_of_singleton. }
  unfold mkdir. destruct (path_exists p w).
  { exists ∅. by rewrite set_fs_dirs_empty. }
  destruct (list.last (parents p)) as [parent|].
  - destruct (isdir parent w); [by exists {[p]}|].
    destruct (isfile parent w); exists ∅; by rewrite set_fs_dirs_empty.
  - by exists {[p]}.
Qed.

Lemma makedirs_heads_grows (heads : list string) (w : World) :
  ∃ S : gset string, (makedirs_heads heads w).2 = set_fs_dirs (fun dirs => S ∪ dirs) w.
Proof.
  induction heads as [|head above IH]; cbn [makedirs_heads].
  { exists ∅. by rewrite set_fs_dirs_empty. }
  destruct (path_exists head w).
  { exists ∅. by rewrite set_fs_dirs_empty. }
  destruct IH as [S1 H1]. destruct (makedirs_heads above w) as [[e|[]] w1]; simpl in H1.
  - by exists S1.
  - destruct (mkdir_grows head w1) as (S2 & H2 & _).
    exists (S2 ∪ S1). by rewrite H2, H1, set_fs_dirs_union.
Qed.

Lemma makedirs_grows (name : string) (exist_ok : bool) (w : World) :
  ∃ S : gset string,
    (makedirs name exist_ok w).2 = set_fs_dirs (fun dirs => S ∪ dirs) w
    ∧ (∀ u, (makedirs name exist_ok w).1 = inr u
            → isdir name (makedirs name exist_ok w).2 = true).
Proof.
  unfold makedirs.
  destruct (makedirs_heads_grows (reverse (parents name)) w) as [S1 H1].
  destruct (makedirs_heads (reverse (parents name)) w) as [[e|[]] w1]; simpl in H1.
  { by exists S1. }
  destruct (mkdir_grows name w1) as (S2 & H2 & Hdir).
  exists (S2 ∪ S1). rewrite <- set_fs_dirs_union, <- H1.
  destruct (mkdir name w1) as [[e|[]] w2]; simpl in *.
  - destruct (negb exist_ok || negb (isdir name w2)) eqn:E; simpl.
    + by split.
    + split; [done|]. intros u _.
      apply orb_false_iff in E as [_ E]. by apply negb_false_iff in E.
  - split; [done|]. intros u _. by apply (Hdir ()).
Qed.

(** X19.  Whatever its arguments and whether it succeeds or fails,
    [create_subdir] only adds directories: no directory disappears, and the
    files, the contexts and the rest of the state stay as they were.  When
    it succeeds, the path it returns is a directory afterwards, and with at
    least one component that path is [build_path] of the components. *)
Theorem create_subdir_only_adds_directories :
  ∀ (self : nat) (paths : list string) (exist_ok : bool) (w : World),
    ∃ created : gset string,
      (create_subdir self paths exist_ok w).2
      = set_fs_dirs (fun dirs => created ∪ dirs) w
      ∧ ∀ tdir, (create_subdir self paths exist_ok w).1 = inr tdir →
          isdir tdir (create_subdir self paths exist_ok w).2 = true
          ∧ (paths ≠ [] → tdir = build_path (context_at self w) paths).
Proof.
  intros self paths exist_ok w. unfold create_subdir.
  destruct paths as [|p paths].
  - unfold mkdtemp_in. destruct (isdir (_root_dir (context_at self w)) w).
    + eexists. split; [reflexivity|]. simpl. intros tdir [= <-]. split; [|done].
      apply bool_decide_eq_true, elem_of_union. left. by apply elem_of_singleton.
    + exists ∅. rewrite set_fs_dirs_empty.
      destruct (isfile _ w); by split.
  - set (name := path_join_all (_root_dir (context_at self w)) (p :: paths)).
    destruct (makedirs_grows name exist_ok w) as (S & HS & Hdir).
    exists S. destruct (makedirs name exist_ok w) as [[e|[]] w1]; simpl in *.
    + by split.
    + split; [done|]. intros tdir [= <-]. split; [by apply (Hdir ())|done].
Qed.

Lemma create_subdir_only_adds_directories_witness :
  let w := session_start (Some "/work") "default" imported_process in
  let self := session_context imported_process in
  (create_subdir self ["models"; "v1"] false w).1 = inr "/work/models/v1"
  ∧ isdir "/work/models/v1" (create_subdir self ["models"; "v1"] false w).2 = true
  ∧ isdir "/work/models" (create_subdir self ["models"; "v1"] false w).2 = true.
Proof.
  intros w self.
  assert ((create_subdir self ["models"; "v1"] false w).1 = inr "/work/models/v1") as H
    by (vm_compute; reflexivity).
  split; [exact H|]. split; [|vm_compute; reflexivity].
  destruct (create_subdir_only_adds_directories self ["models"; "v1"] false w)
    as (created & _ & Hok).
  exact (proj1 (Hok "/work/models/v1" H)).
Defined.

(** ** Stacked hooks *)

Lemma catch_object_halves (obj : PyObj) :
  _catch_object obj
  = (hook_registration (if obj_isclass obj then obj_ident obj else type_of obj)
       (_get_mro_paths obj) ;;
     hook_bookkeeping obj).
Proof. reflexivity. Qed.

Lemma lazy_registration_no_match (obj_type : string) (paths : list string) (w : World) :
  list.last (omap (fun path => _CUSTOM_DISPATCH w !! path) paths) = None →
  for_each (fun path =>
    w ← get_world;
    match _CUSTOM_DISPATCH w !! path with
    | Some f => dispatch_setitem obj_type f
    | None => mret ()
    end) paths w = (Ok (), w).
Proof.
  intros Hnone%last_None.
  induction paths as [|path paths IH]; [done|].
  cbn [omap list_omap] in Hnone.
  destruct (_CUSTOM_DISPATCH w !! path) eqn:Hp; [done|].
  cbn [for_each]. rewrite bind_eq.
  match goal with |- context [(get_world ≫= ?k) w] =>
    change ((get_world ≫= k) w) with (k w w) end.
  cbn beta. rewrite Hp. by apply IH.
Qed.

(** After the registration has run once, it changes nothing any more, in
    any state with the same tables. *)
Lemma hook_registration_stable (obj_type : string) (paths : list string) (w w2 : World) :
  dict_objects w2 = dict_objects (hook_registration obj_type paths w).2 →
  Pickler_dispatch w2 = Pickler_dispatch (hook_registration obj_type paths w).2 →
  _CUSTOM_DISPATCH w2 = _CUSTOM_DISPATCH w →
  hook_registration obj_type paths w2 = (Ok (), w2).
Proof.
  unfold hook_registration.
  match goal with |- context [(get_world ≫= ?k) w] =>
    change ((get_world ≫= k) w) with (k w w) end.
  match goal with |- context [(get_world ≫= ?k) w2] =>
    change ((get_world ≫= k) w2) with (k w2 w2) end.
  cbn beta.
  destruct (bool_decide (is_Some (dispatch w !! obj_type))) eqn:Hin.
  - simpl. intros Hd Hp _. unfold dispatch in *. by rewrite Hd, Hp, Hin.
  - destruct (lazy_registration_loop obj_type paths w) as (_ & Hcd & Hdisp).
    cbn zeta in Hcd, Hdisp. intros Hd Hp Hc.
    assert (dispatch w2
            = match list.last (omap (fun path => _CUSTOM_DISPATCH w !! path) paths) with
              | Some f => <[obj_type := f]> (dispatch w)
              | None => dispatch w
              end) as Hd2.
    { rewrite <- Hdisp. unfold dispatch. by rewrite Hd, Hp. }
    rewrite Hd2.
    destruct (list.last (omap (fun path => _CUSTOM_DISPATCH w !! path) paths)) as [f|] eqn:Hl.
    + rewrite lookup_insert_eq. by rewrite bool_decide_eq_true_2.
    + rewrite Hin. apply lazy_registration_no_match. by rewrite Hc.
Qed.

Lemma hook_bookkeeping_twice (obj : PyObj) (w1 w2 : World) :
  hook_bookkeeping obj w1 = (Ok (), w2) →
  hook_bookkeeping obj w2 = (Ok (), w2)
  ∧ dict_objects w2 = dict_objects w1
  ∧ Pickler_dispatch w2 = Pickler_dispatch w1
  ∧ _CUSTOM_DISPATCH w2 = _CUSTOM_DISPATCH w1.
Proof.
  unfold hook_bookkeeping. rewrite !bind_eq. unfold _get_base_module.
  destruct (obj_module obj) as [module|]; [|by intros [= <-]].
  destruct (sys_modules w1 !! _) as [bm|] eqn:Hs; [|done].
  destruct (bool_decide (__name__ bm ∈ _BLACKLIST)) eqn:Hb.
  { intros [= <-]. rewrite Hs. cbn beta iota. by rewrite Hb. }
  rewrite bind_eq. unfold get_context at 1.
  destruct (_contexts w1 !! _DEFAULT) as [c|] eqn:Hc; [|done].
  rewrite add_module_ok. intros [= <-].
  cbn [sys_modules set_context_objects]. rewrite Hs. cbn beta iota. rewrite Hb.
  split; [|done].
  rewrite bind_eq. unfold get_context. cbn [_contexts set_context_objects].
  rewrite Hc, add_module_ok. f_equal.
  rewrite set_context_objects_twice. apply set_context_objects_ext.
  unfold context_at. simpl. rewrite lookup_total_insert_eq, insert_insert_eq. simpl.
  do 2 f_equal. by rewrite (assoc_L (∪)), union_idemp_L.
Qed.

Lemma catch_object_twice (obj : PyObj) (w : World) :
  (_catch_object obj ;; _catch_object obj) w = _catch_object obj w.
Proof.
  rewrite bind_eq.
  destruct (_catch_object obj w) as [[[]|e] w2] eqn:Hrun; [|done].
  rewrite catch_object_halves in *. rewrite bind_eq in Hrun. rewrite bind_eq.
  set (obj_type := if obj_isclass obj then obj_ident obj else type_of obj) in *.
  pose proof (hook_registration_stable obj_type (_get_mro_paths obj) w w2) as Hstable.
  destruct (lazy_registration_loop obj_type (_get_mro_paths obj) w) as (_ & Hcd & _).
  assert (_CUSTOM_DISPATCH (hook_registration obj_type (_get_mro_paths obj) w).2
          = _CUSTOM_DISPATCH w) as Hcd1.
  { unfold hook_registration.
    match goal with |- context [(get_world ≫= ?k) w] =>
      change ((get_world ≫= k) w) with (k w w) end.
    cbn beta. destruct (bool_decide _); [done|exact Hcd]. }
  destruct (hook_registration obj_type (_get_mro_paths obj) w) as [[[]|e] w1]; [|done].
  simpl in Hstable, Hcd1.
  destruct (hook_bookkeeping_twice obj w1 w2 Hrun) as (Hagain & Hd & Hp & Hc).
  rewrite Hstable; [exact Hagain|done|done|congruence].
Qed.

(** X20.  The hook is idempotent: catching the same object twice in a row
    leaves the same state, or the same exception, as catching it once.
    Hence the wrappers that nested sessions stack on [Pickler.save] behave
    as one: saving through a wrapper around a wrapper is the same as saving
    through a single wrapper. *)
Theorem stacked_wrappers_act_as_one :
  (∀ (obj : PyObj) (w : World),
      (_catch_object obj ;; _catch_object obj) w = _catch_object obj w)
  ∧ (∀ (pickler_save : SaveFn) (obj : PyObj) (w : World),
      wrapped_save (Wrapped pickler_save) obj w = wrapped_save pickler_save obj w).
Proof.
  split; [exact catch_object_twice|].
  intros pickler_save obj w. unfold wrapped_save. cbn [apply_save].
  destruct (_is_namedtuple obj && negb (is_Empty obj)); [done|].
  pose proof (catch_object_twice obj w) as Htwice.
  rewrite !bind_eq in *.
  destruct (_catch_object obj w) as [[[]|e] w1]; [|done].
  rewrite bind_eq. by rewrite Htwice.
Qed.

(** * The contracts of a session *)

(** ** Opening a session under a name, twice *)

(** A session over an explicit root directory that returns leaves the
    directory usable for the next session. *)
Lemma session_leaves_root_usable {A} d name (body : nat → M A) (w : World) (v : A) (w2 : World) :
  _contexts w !! name = None →
  can_open (Some d) w = true →
  body (session_context w) (session_start (Some d) name w) = (Ok v, w2) →
  _root_dir (context_at (session_context w) w2) = d →
  _params_path (context_at (session_context w) w2) = path_join d "context.json" →
  isdir d w2 = true →
  is_Some (_contexts w2 !! name) →
  defaults_importable w2 = true →
  ∃ w', AcumosContextManager (Some d) name body w = (Ok v, w')
    ∧ _contexts w' !! name = None
    ∧ can_open (Some d) w' = true
    ∧ fs_files w' !! path_join d "context.json"
      = Some (JsonDocument (parameters (context_at (session_context w) w2))).
Proof.
  intros Hfree Hopen Hbody Hroot Hpath Hdir Hreg Himp.
  destruct (session_result_ok (Some d) name body w v w2 Hfree Hopen Hbody)
    as (w' & Hrun & Hc & _ & Hs & _ & _ & Hd & Hf); [by rewrite Hroot | done |].
  rewrite Hpath in Hf. simpl in Hf.
  exists w'. split_and!.
  - done.
  - rewrite Hc. apply lookup_delete_eq.
  - rewrite can_open_explicit, !andb_true_iff. split_and!.
    + unfold defaults_importable in *. by rewrite Hs.
    + unfold isdir in *. by rewrite Hd.
    + unfold loadable. by rewrite Hf, lookup_insert_eq.
  - by rewrite Hf, lookup_insert_eq.
Qed.




(** ** Saving and reloading the parameters *)

(** C8.  [save_params] on a context whose root directory exists succeeds and
    writes the parameter mapping to [context.json] under the root, and a new
    [AcumosContext] over the same root directory then has exactly that
    mapping.  Over a root directory without [context.json] a new context has
    the empty mapping.  A session over an explicit root directory whose block
    returns closes cleanly, and a new context over that directory then has
    the parameters the session's context held when the block returned. *)
Theorem saved_parameters_reload :
  (∀ (self : nat) (w : World),
      let c := context_at self w in
      isdir (_root_dir c) w = true →
      isdir (_params_path c) w = false →
      _params_path c = path_join (_root_dir c) "context.json" →
      defaults_importable w = true →
      ∃ w1 c2 w2,
        save_params self w = (Ok (), w1)
        ∧ fs_files w1 !! path_join (_root_dir c) "context.json"
          = Some (JsonDocument (parameters c))
        ∧ AcumosContext__init__ (_root_dir c) w1 = (Ok c2, w2)
        ∧ (c2 ∉ dom (context_objects w))
        ∧ parameters (context_at c2 w2) = parameters c)
  ∧ (∀ (root_dir : string) (w : World),
      isdir root_dir w = true →
      fs_files w !! path_join root_dir "context.json" = None →
      defaults_importable w = true →
      ∃ c w',
        AcumosContext__init__ root_dir w = (Ok c, w')
        ∧ parameters (context_at c w') = ∅)
  ∧ (∀ A (d name : string) (body : nat → M A) (w w2 : World) (v : A),
      _contexts w !! name = None →
      can_open (Some d) w = true →
      let c := session_context w in
      body c (session_start (Some d) name w) = (Ok v, w2) →
      _root_dir (context_at c w2) = d →
      _params_path (context_at c w2) = path_join d "context.json" →
      isdir d w2 = true →
      isdir (path_join d "context.json") w2 = false →
      is_Some (_contexts w2 !! name) →
      defaults_importable w2 = true →
      ∃ w' c2 w3,
        AcumosContextManager (Some d) name body w = (Ok v, w')
        ∧ AcumosContext__init__ d w' = (Ok c2, w3)
        ∧ parameters (context_at c2 w3) = parameters (context_at c w2)).
Proof.
  split_and!.
  - intros self w c Hdir _ Hpath Himp.
    unfold save_params. fold c. rewrite Hdir.
    set (w1 := set_fs_files <[_params_path c := JsonDocument (parameters c)]> w).
    assert (fs_files w1 !! path_join (_root_dir c) "context.json"
            = Some (JsonDocument (parameters c))) as Hfile.
    { unfold w1. simpl. by rewrite <- Hpath, lookup_insert_eq. }
    destruct (defaults_importable_spec w Himp) as (gm & dm & Hg & Hd).
    exists w1. eexists _, _. split_and!.
    + done.
    + done.
    + apply (AcumosContext__init__ok (_root_dir c) w1 gm dm); try done.
      unfold loadable. by rewrite Hfile.
    + apply is_fresh.
    + unfold context_at at 1. simpl. rewrite lookup_total_insert_eq. simpl.
      unfold loaded_params. by rewrite Hfile.
  - intros root_dir w Hdir Hnone Himp.
    destruct (AcumosContext__init__loads root_dir w) as (c & w' & Hinit & Hparams & _);
      [done | by unfold loadable; rewrite Hnone | done |].
    exists c, w'. split; [done|]. rewrite Hparams. unfold loaded_params. by rewrite Hnone.
  - intros A d name body w w2 v Hfree Hopen c Hbody Hroot Hpath Hdir _ Hreg Himp.
    destruct (session_leaves_root_usable d name body w v w2 Hfree Hopen Hbody
                Hroot Hpath Hdir Hreg Himp) as (w' & Hrun & _ & Hopen' & Hfile).
    rewrite can_open_explicit, !andb_true_iff in Hopen'.
    destruct Hopen' as [[Himp' Hdir'] Hload'].
    destruct (AcumosContext__init__loads d w' Hdir' Hload' Himp')
      as (c2 & w3 & Hinit & Hparams & _).
    exists w', c2, w3. split_and!; [done..|].
    rewrite Hparams. unfold loaded_params. by rewrite Hfile.
Qed.

Lemma saved_parameters_reload_witness :
  let w := imported_process in
  let c := session_context w in
  let w2 := (set_parameter "epochs" (JNumber 3) c
               (session_start (Some "/work") "default" w)).2 in
  _contexts w !! "default" = None
  ∧ can_open (Some "/work") w = true
  ∧ parameters (context_at c w2) = {[ "epochs" := JNumber 3 ]}
  ∧ ∃ w' c2 w3,
      AcumosContextManager (Some "/work") "default"
        (set_parameter "epochs" (JNumber 3)) w = (Ok (), w')
      ∧ AcumosContext__init__ "/work" w' = (Ok c2, w3)
      ∧ parameters (context_at c2 w3) = parameters (context_at c w2).
Proof.
  intros w c w2.
  assert (_contexts w !! "default" = None) as Hfree by (vm_compute; reflexivity).
  assert (can_open (Some "/work") w = true) as Hopen by (vm_compute; reflexivity).
  assert (set_parameter "epochs" (JNumber 3) c
            (session_start (Some "/work") "default" w) = (Ok (), w2)) as Hbody
    by reflexivity.
  assert (_root_dir (context_at c w2) = "/work") as Hroot by (vm_compute; reflexivity).
  assert (_params_path (context_at c w2) = path_join "/work" "context.json") as Hpath
    by (vm_compute; reflexivity).
  assert (isdir "/work" w2 = true) as Hdir by (vm_compute; reflexivity).
  assert (isdir (path_join "/work" "context.json") w2 = false) as Hnd
    by (vm_compute; reflexivity).
  assert (is_Some (_contexts w2 !! "default")) as Hreg
    by (eexists; vm_compute; reflexivity).
  assert (defaults_importable w2 = true) as Himp by (vm_compute; reflexivity).
  split; [exact Hfree|]. split; [exact Hopen|]. split; [vm_compute; reflexivity|].
  exact (proj2 (proj2 saved_parameters_reload) unit "/work" "default"
           (set_parameter "epochs" (JNumber 3)) w w2 () Hfree Hopen Hbody Hroot Hpath
           Hdir Hnd Hreg Himp).
Defined.

(** ** What the hook discovers *)

Lemma hook_adds_base_module (obj : PyObj) (module base_module : Module) (w : World) (c : nat) :
  obj_module obj = Some module →
  sys_modules w !! partition_dot (__name__ module) = Some base_module →
  __name__ base_module ∉ _BLACKLIST →
  _contexts w !! _DEFAULT = Some c →
  (_catch_object obj w).1 = Ok ()
  ∧ _modules (context_at c (_catch_object obj w).2)
    = {[base_module]} ∪ _modules (context_at c w).
Proof.
  intros Hm Hsys Hbl Hreg.
  destruct (hook_split obj w) as (w1 & Hc & Hn & Hs & ->).
  rewrite bind_eq. unfold _get_base_module. rewrite Hm, Hs, Hsys.
  rewrite bool_decide_eq_false_2 by done.
  rewrite bind_eq. unfold get_context. rewrite Hn, Hreg.
  unfold add_module. rewrite bind_eq.
  unfold mret, M_ret, update_context, modify, context_at. simpl.
  by rewrite lookup_total_insert_eq, Hc.
Qed.

(** C7, as stated, fails: not in every context state are the package names
    top-level names.  [add_module] records the module it is given under the
    name that module has: in a session, [context.add_module(A.b)] puts the
    dotted name [A.b] among the package names. *)
Lemma add_module_records_dotted_name :
  (add_module 0 (ArgModule mod_A_b) in_session).1 = Ok ()
  ∧ _contexts in_session !! _DEFAULT = Some 0
  ∧ has_dot "A.b" = true
  ∧ "A.b" ∈ package_names (context_at 0 (add_module 0 (ArgModule mod_A_b) in_session).2).
Proof.
  split_and!; [reflexivity | vm_compute; reflexivity | reflexivity |].
  apply elem_of_package_names. exists mod_A_b. split; [reflexivity|].
  apply elem_of_packages. split; [reflexivity|].
  rewrite add_module_ok. unfold context_at. simpl.
  rewrite lookup_total_insert_eq. simpl. apply elem_of_union. left.
  by apply elem_of_singleton.
Qed.

(** C7, amended.  In every context, a module whose [__package__] is set is in
    the package view (and its name among the package names) and not in the
    script view; a module without [__package__] whose name is not [__main__]
    is in the script view and not in the package view; the two views are
    disjoint subsets of the module set and are functions of the module set
    alone.  The pre-save hook discovers modules by their top-level name: for
    an object defined in a module [M], with a context named [default], it
    adds [sys.modules] of the text before the first dot of [M]'s name to the
    module set, so that this module appears in the package or the script
    view according to its metadata; it adds nothing else.  When
    [sys.modules] is keyed by module names, the name it adds has no dot, and
    the hook keeps dotted names out of the package and script names. *)
Theorem module_partition :
  (∀ (c : AcumosContext) (m : Module),
      m ∈ modules c → truthy (__package__ m) = true →
      m ∈ packages c ∧ __name__ m ∈ package_names c ∧ m ∉ scripts c)
  ∧ (∀ (c : AcumosContext) (m : Module),
      m ∈ modules c → truthy (__package__ m) = false → __name__ m ≠ "__main__" →
      m ∈ scripts c ∧ __name__ m ∈ script_names c ∧ m ∉ packages c)
  ∧ (∀ c : AcumosContext,
      packages c ## scripts c ∧ packages c ⊆ modules c ∧ scripts c ⊆ modules c)
  ∧ (∀ c c' : AcumosContext,
      _modules c = _modules c' →
      packages c = packages c' ∧ scripts c = scripts c'
      ∧ package_names c = package_names c' ∧ script_names c = script_names c')
  ∧ (∀ (obj : PyObj) (module base_module : Module) (w : World) (c : nat),
      obj_module obj = Some module →
      sys_modules w !! partition_dot (__name__ module) = Some base_module →
      __name__ base_module ∉ _BLACKLIST →
      _contexts w !! _DEFAULT = Some c →
      let ctx' := context_at c (_catch_object obj w).2 in
      (_catch_object obj w).1 = Ok ()
      ∧ modules ctx' = {[base_module]} ∪ modules (context_at c w)
      ∧ (truthy (__package__ base_module) = true →
           base_module ∈ packages ctx' ∧ __name__ base_module ∈ package_names ctx')
      ∧ (truthy (__package__ base_module) = false →
           __name__ base_module ≠ "__main__" →
           base_module ∈ scripts ctx' ∧ __name__ base_module ∈ script_names ctx')
      ∧ (sys_modules_keyed w →
           __name__ base_module = partition_dot (__name__ module)
           ∧ has_dot (__name__ base_module) = false))
  ∧ (∀ (obj : PyObj) (w w' : World) (self : nat) (m : Module),
      _catch_object obj w = (Ok (), w') →
      m ∈ _modules (context_at self w') →
      m ∈ _modules (context_at self w)
      ∨ ∃ module, obj_module obj = Some module
          ∧ sys_modules w !! partition_dot (__name__ module) = Some m
          ∧ has_dot (partition_dot (__name__ module)) = false)
  ∧ (∀ (obj : PyObj) (w w' : World) (self : nat),
      sys_modules_keyed w →
      _catch_object obj w = (Ok (), w') →
      (∀ m, m ∈ _modules (context_at self w) → has_dot (__name__ m) = false) →
      ∀ name,
        (name ∈ package_names (context_at self w')
         ∨ name ∈ script_names (context_at self w')) →
        has_dot name = false).
Proof.
  split_and!.
  - intros c m Hin Hp. unfold modules in Hin.
    rewrite elem_of_package_names, elem_of_scripts. split_and!.
    + by apply elem_of_packages.
    + exists m. split; [done|]. by apply elem_of_packages.
    + intros (_ & Hf & _). congruence.
  - intros c m Hin Hp Hmain. unfold modules in Hin.
    rewrite elem_of_script_names, elem_of_packages. split_and!.
    + by apply elem_of_scripts.
    + exists m. split; [done|]. by apply elem_of_scripts.
    + intros [Hf _]. congruence.
  - intros c. unfold modules. split_and!.
    + intros m [Ht _]%elem_of_packages (_ & Hf & _)%elem_of_scripts. congruence.
    + intros m. rewrite elem_of_packages. tauto.
    + intros m. rewrite elem_of_scripts. tauto.
  - intros c c' Heq. unfold package_names, script_names, packages, scripts.
    by rewrite Heq.
  - intros obj module bm w c Hm Hsys Hbl Hreg ctx'.
    destruct (hook_adds_base_module obj module bm w c Hm Hsys Hbl Hreg) as [Hok Hmods].
    fold ctx' in Hmods.
    assert (bm ∈ _modules ctx') as Hin.
    { rewrite Hmods. apply elem_of_union. left. by apply elem_of_singleton. }
    split_and!.
    + done.
    + done.
    + intros Hp. split.
      * by apply elem_of_packages.
      * apply elem_of_package_names. exists bm. split; [done|]. by apply elem_of_packages.
    + intros Hp Hmain. split.
      * by apply elem_of_scripts.
      * apply elem_of_script_names. exists bm. split; [done|]. by apply elem_of_scripts.
    + intros Hkeyed. rewrite (Hkeyed _ _ Hsys). split; [done|]. apply partition_dot_no_dot.
  - intros obj w w' self m Hrun Hin.
    destruct (catch_object_modules obj w w' Hrun self m Hin) as [Hold|(module & Hm & Hs)].
    + by left.
    + right. exists module. split_and!; [done..|]. apply partition_dot_no_dot.
  - intros obj w w' self Hkeyed Hrun Hinv.
    assert (∀ m, m ∈ _modules (context_at self w') → has_dot (__name__ m) = false) as Hinv'.
    { intros m Hin.
      destruct (catch_object_modules obj w w' Hrun self m Hin) as [Hold|(module & Hm & Hs)].
      - by apply Hinv.
      - rewrite (Hkeyed _ _ Hs). apply partition_dot_no_dot. }
    intros name [(m & -> & Hin)%elem_of_package_names|(m & -> & Hin)%elem_of_script_names];
      apply Hinv'.
    + apply elem_of_packages in Hin. tauto.
    + apply elem_of_scripts in Hin. tauto.
Qed.

Lemma module_partition_witness :
  obj_module keras_model = Some mod_A_b
  ∧ sys_modules in_session !! partition_dot (__name__ mod_A_b) = Some mod_A
  ∧ (__name__ mod_A ∉ _BLACKLIST)
  ∧ _contexts in_session !! _DEFAULT = Some 0
  ∧ truthy (__package__ mod_A) = true
  ∧ (mod_A ∉ modules (context_at 0 in_session))
  ∧ (_catch_object keras_model in_session).1 = Ok ()
  ∧ "A" ∈ package_names (context_at 0 (_catch_object keras_model in_session).2).
Proof.
  assert (obj_module keras_model = Some mod_A_b) as H1 by reflexivity.
  assert (sys_modules in_session !! partition_dot (__name__ mod_A_b) = Some mod_A) as H2
    by (vm_compute; reflexivity).
  assert (__name__ mod_A ∉ _BLACKLIST) as H3.
  { unfold _BLACKLIST. simpl. set_solver. }
  assert (_contexts in_session !! _DEFAULT = Some 0) as H4 by (vm_compute; reflexivity).
  assert (truthy (__package__ mod_A) = true) as H5 by reflexivity.
  split_and!; [exact H1 | exact H2 | exact H3 | exact H4 | exact H5 | | |].
  - unfold modules. apply (bool_decide_unpack _). vm_compute. exact I.
  - exact (proj1 (proj1 (proj2 (proj2 (proj2 (proj2 module_partition))))
                    keras_model mod_A_b mod_A in_session 0 H1 H2 H3 H4)).
  - exact (proj2 (proj1 (proj2 (proj2
             (proj1 (proj2 (proj2 (proj2 (proj2 module_partition))))
                keras_model mod_A_b mod_A in_session 0 H1 H2 H3 H4))) H5)).
Defined.

(** ** Lazy registrations stay in the session *)

Lemma catch_object_registers (obj : PyObj) (f : Handler) (w : World) :
  let obj_type := if obj_isclass obj then obj_ident obj else type_of obj in
  dispatch w !! obj_type = None →
  list.last (omap (fun path => _CUSTOM_DISPATCH w !! path) (_get_mro_paths obj)) = Some f →
  dispatch (_catch_object obj w).2 = <[obj_type := f]> (dispatch w).
Proof.
  intros obj_type Hnone Hlast. unfold _catch_object. fold obj_type.
  rewrite bind_eq.
  match goal with |- context [(get_world ≫= ?k) w] =>
    change ((get_world ≫= k) w) with (k w w) end.
  cbn beta.
  rewrite bool_decide_eq_false_2 by (rewrite Hnone; by intros [? ?]).
  destruct (lazy_registration_loop obj_type (_get_mro_paths obj) w) as (Hr & _ & Hl).
  simpl in Hr, Hl. rewrite Hlast in Hl.
  destruct (for_each _ _ w) as [[[]|e] w1]; [|done]. simpl in Hl.
  destruct (hook_second_half_tables obj w1) as (Hd & Hp & _). simpl in Hd, Hp.
  rewrite <- Hl. unfold dispatch. by rewrite Hd, Hp.
Qed.

Lemma catch_object_registered (obj : PyObj) (w : World) :
  is_Some (dispatch w !! (if obj_isclass obj then obj_ident obj else type_of obj)) →
  dispatch (_catch_object obj w).2 = dispatch w.
Proof.
  intros Hin. unfold _catch_object. rewrite bind_eq.
  match goal with |- context [(get_world ≫= ?k) w] =>
    change ((get_world ≫= k) w) with (k w w) end.
  cbn beta. rewrite bool_decide_eq_true_2 by done.
  unfold mret at 1, M_ret at 1.
  destruct (hook_second_half_tables obj w) as (Hd & Hp & _). simpl in Hd, Hp.
  unfold dispatch. by rewrite Hd, Hp.
Qed.

(** Once the type of the object is registered, saving it, through any stack
    of wrappers, leaves the entries of the table as they are. *)
Lemma apply_save_registered (g : SaveFn) (obj : PyObj) (w : World) :
  is_Some (dispatch w !! (if obj_isclass obj then obj_ident obj else type_of obj)) →
  dispatch (apply_save g obj w).2 = dispatch w.
Proof.
  revert w. induction g as [|g IH]; intros w Hin; cbn [apply_save].
  - apply stock_save_dispatch.
  - rewrite bind_eq. pose proof (catch_object_registered obj w Hin) as Hhook.
    destruct (_catch_object obj w) as [[[]|e] w1]; [|done]. simpl in Hhook.
    destruct (_is_namedtuple obj && negb (is_Empty obj)).
    + by destruct (obj_kind obj).
    + rewrite IH by (by rewrite Hhook). done.
Qed.

Lemma wrapped_save_registers (g : SaveFn) (obj : PyObj) (f : Handler) (w : World) :
  let obj_type := if obj_isclass obj then obj_ident obj else type_of obj in
  dispatch w !! obj_type = None →
  list.last (omap (fun path => _CUSTOM_DISPATCH w !! path) (_get_mro_paths obj)) = Some f →
  dispatch (apply_save (Wrapped g) obj w).2 = <[obj_type := f]> (dispatch w).
Proof.
  intros obj_type Hnone Hlast. cbn [apply_save]. rewrite bind_eq.
  pose proof (catch_object_registers obj f w Hnone Hlast) as Hhook. fold obj_type in Hhook.
  destruct (_catch_object obj w) as [[[]|e] w1]; [|done]. simpl in Hhook.
  destruct (_is_namedtuple obj && negb (is_Empty obj)).
  - by destruct (obj_kind obj).
  - rewrite apply_save_registered; [done|].
    fold obj_type. rewrite Hhook, lookup_insert_eq. by eexists.
Qed.

(** C9, amended.  While no interceptor is installed, [Pickler.save] is dill's
    own function: the pre-save hook does not run and a save leaves the
    entries of the dispatch table as they were.  In a session, the hook's
    lazy registration is written to the table of the session, a deep copy
    made by [_patch_dill] that did not exist before: the registered type is
    in that table while the block runs, the dictionary that was
    [dill.Pickler.dispatch] before the session is not touched, and after the
    session [dill.Pickler.dispatch] is that dictionary again, without the
    registration.  Whatever is saved in the block of an
    [AcumosContextManager], every dispatch dictionary that existed before
    the statement has the same entries after it.  Importing the module,
    however, writes to the process-wide table outside any session. *)
Theorem lazy_registration_confined_to_sessions :
  (∀ (obj : PyObj) (w : World),
      Pickler_save w = dill_save →
      Pickler_save_call obj w = stock_save obj w
      ∧ dispatch (Pickler_save_call obj w).2 = dispatch w)
  ∧ (∀ (obj : PyObj) (f : Handler) (w : World),
      let obj_type := if obj_isclass obj then obj_ident obj else type_of obj in
      Pickler_dispatch w ∈ dom (dict_objects w) →
      dispatch w !! obj_type = None →
      list.last (omap (fun path => _CUSTOM_DISPATCH w !! path) (_get_mro_paths obj))
      = Some f →
      ∃ w_in w',
        _patch_dill (attempt (Pickler_save_call obj) ;; get_world) w = (Ok w_in, w')
        ∧ dispatch w_in !! obj_type = Some f
        ∧ (Pickler_dispatch w_in ∉ dom (dict_objects w))
        ∧ dict_objects w_in !! Pickler_dispatch w = dict_objects w !! Pickler_dispatch w
        ∧ Pickler_dispatch w' = Pickler_dispatch w
        ∧ dispatch w' = dispatch w
        ∧ dispatch w' !! obj_type = None)
  ∧ (∀ rootdir name (objs : list PyObj) (w : World),
      Pickler_dispatch w ∈ dom (dict_objects w) →
      let final :=
        AcumosContextManager rootdir name (fun _ => for_each Pickler_save_call objs) w in
      Pickler_dispatch final.2 = Pickler_dispatch w
      ∧ (∀ l, l ∈ dom (dict_objects w) → dict_objects final.2 !! l = dict_objects w !! l)
      ∧ dispatch final.2 = dispatch w)
  ∧ (∀ w : World,
      dispatch (module_init w).2 = <[GenericMeta := H_save_annotation]> (dispatch w)).
Proof.
  split_and!.
  - intros obj w Hs.
    assert (Pickler_save_call obj w = stock_save obj w) as ->.
    { unfold Pickler_save_call. rewrite bind_eq. unfold get_world. by rewrite Hs. }
    split; [done | apply stock_save_dispatch].
  - intros obj f w obj_type Hdom Hnone Hlast.
    rewrite _patch_dill_eq.
    set (wi := patch_enter w).
    set (w_in := (Pickler_save_call obj wi).2).
    assert ((attempt (Pickler_save_call obj) ;; get_world) wi = (Ok w_in, w_in)) as ->
      by reflexivity.
    destruct (local_Pickler_save_call obj wi) as (Hp & _ & Hl). fold w_in in Hp, Hl.
    pose proof (patch_enter_fresh w) as Hfresh. fold wi in Hfresh.
    assert (dict_objects w_in !! Pickler_dispatch w = dict_objects w !! Pickler_dispatch w)
      as Hkept.
    { rewrite Hl.
      - unfold wi, patch_enter. simpl. apply lookup_insert_ne.
        intros Heq. apply (is_fresh (dom (dict_objects w))). by rewrite Heq.
      - unfold wi, patch_enter. simpl. rewrite dom_insert_L. apply elem_of_union. by right.
      - intros Heq. apply Hfresh. by rewrite <- Heq. }
    assert (dispatch (patch_exit w w_in) = dispatch w) as Hexit.
    { unfold dispatch, patch_exit. simpl. unfold lookup_total, map_lookup_total.
      by rewrite Hkept. }
    exists w_in, (patch_exit w w_in). split_and!.
    + done.
    + unfold w_in, Pickler_save_call. rewrite bind_eq. unfold get_world.
      change (Pickler_save wi) with (Wrapped (Pickler_save w)).
      rewrite (wrapped_save_registers _ obj f wi).
      * apply lookup_insert_eq.
      * unfold wi. by rewrite patch_enter_dispatch.
      * done.
    + by rewrite Hp.
    + done.
    + done.
    + done.
    + by rewrite Hexit.
  - intros rootdir name objs w Hdom final.
    assert (table_local (session_block rootdir name
                           (fun _ => for_each Pickler_save_call objs))) as Hlocal.
    { apply local_session_block. intros _. apply local_for_each.
      apply local_Pickler_save_call. }
    destruct (patch_dill_keeps_tables _ w Hlocal) as (Hp & _ & _ & Hl).
    unfold final. rewrite AcumosContextManager_eq.
    split_and!; [done | done |].
    unfold dispatch. rewrite Hp. unfold lookup_total, map_lookup_total.
    by rewrite Hl.
  - intros w. unfold module_init, mbind, M_bind, modify, dispatch_setitem. simpl.
    unfold dispatch. simpl. by rewrite lookup_total_insert_eq.
Qed.

Lemma lazy_registration_confined_to_sessions_witness :
  let obj_type := if obj_isclass keras_model then obj_ident keras_model
                  else type_of keras_model in
  Pickler_dispatch custom_process ∈ dom (dict_objects custom_process)
  ∧ dispatch custom_process !! obj_type = None
  ∧ list.last (omap (fun path => _CUSTOM_DISPATCH custom_process !! path)
                    (_get_mro_paths keras_model)) = Some (H_custom "keras")
  ∧ ∃ w_in w',
      _patch_dill (attempt (Pickler_save_call keras_model) ;; get_world) custom_process
      = (Ok w_in, w')
      ∧ dispatch w_in !! obj_type = Some (H_custom "keras")
      ∧ dispatch w' !! obj_type = None.
Proof.
  intros obj_type.
  assert (Pickler_dispatch custom_process ∈ dom (dict_objects custom_process)) as H1.
  { apply (bool_decide_unpack _). vm_compute. exact I. }
  assert (dispatch custom_process !! obj_type = None) as H2 by (vm_compute; reflexivity).
  assert (list.last (omap (fun path => _CUSTOM_DISPATCH custom_process !! path)
                          (_get_mro_paths keras_model)) = Some (H_custom "keras")) as H3
    by (vm_compute; reflexivity).
  split_and!; [exact H1 | exact H2 | exact H3 |].
  destruct (proj1 (proj2 lazy_registration_confined_to_sessions)
              keras_model (H_custom "keras") custom_process H1 H2 H3)
    as (w_in & w' & Hrun & Hin & _ & _ & _ & _ & Hout).
  exists w_in, w'. by split_and!.
Defined.
